(** * Plinko PIR reference server: a shallow embedding of the query path

    The development follows the Python sources of [plinko-reference]:
    [utils.py], [prset.py], [database.py], [plinko_core.py] and
    [handlers.py].  Python integers are [Z], [bytes] objects are lists of
    [Byte.byte], exceptions are values of [exn] carried by the [result]
    monad, and the wall-clock reading that ends up in [server_time_nanos]
    is an explicit argument of every operation that measures time.
    Logging and the HTTP headers do not influence any returned value and
    are left out. *)

From Stdlib Require Import ZArith List String Ascii Bool Lia Sorted Permutation.
From Stdlib.Strings Require Import Byte.
From Stdlib Require Import DecimalString.
Import ListNotations.

#[local] Set Warnings "-register-all".
Local Open Scope string_scope.
Local Open Scope list_scope.
Local Open Scope Z_scope.

(** ** Python values, exceptions and the error monad *)

(** The values a decoded JSON document (or an untyped Python argument) can
    take.  A float is kept as its IEEE-754 bit pattern; no operation of the
    server ever inspects it. *)
Inductive pyval : Type :=
| PNone
| PBool (b : bool)
| PInt (z : Z)
| PFloat (bits : Z)
| PStr (s : string)
| PList (l : list pyval)
| PDict (d : list (string * pyval)).

(** The exception classes the query path can raise, each with [str(e)]. *)
Inductive exn : Type :=
| ValueError (msg : string)
| IndexError (msg : string)
| TypeError (msg : string)
| KeyError (msg : string)
| StructError (msg : string)
| DatabaseError (msg : string)
| BadRequestError (msg : string).

Inductive result (A : Type) : Type :=
| Ok (a : A)
| Raise (e : exn).

Arguments Ok {A} a.
Arguments Raise {A} e.

Definition bind {A B : Type} (r : result A) (k : A -> result B) : result B :=
  match r with
  | Ok a => k a
  | Raise e => Raise e
  end.

Notation "x <- r ;; k" := (bind r (fun x => k))
  (at level 61, r at next level, right associativity).
Notation "r ;;; k" := (bind r (fun _ => k))
  (at level 61, right associativity).

(** [for x in xs: body(x)] where the body only raises or falls through. *)
Fixpoint for_each {A : Type} (body : A -> result unit) (xs : list A)
  : result unit :=
  match xs with
  | [] => Ok tt
  | x :: rest => body x ;;; for_each body rest
  end.

(** A list comprehension / appending loop whose element computation may
    raise: the first exception aborts the whole loop. *)
Fixpoint map_result {A B : Type} (f : A -> result B) (xs : list A)
  : result (list B) :=
  match xs with
  | [] => Ok []
  | x :: rest => y <- f x ;; ys <- map_result f rest ;; Ok (y :: ys)
  end.

Definition str_exn (e : exn) : string :=
  match e with
  | ValueError m | IndexError m | TypeError m | KeyError m
  | StructError m | DatabaseError m | BadRequestError m => m
  end.

(** [str(z)] for a Python int. *)
Definition str_Z (z : Z) : string := NilZero.string_of_int (Z.to_int z).

(** [isinstance(v, int)]: [bool] is a subclass of [int]. *)
Definition isinstance_int (v : pyval) : bool :=
  match v with
  | PInt _ | PBool _ => true
  | _ => false
  end.

(** The numeric value of an [int] instance ([True] is 1, [False] is 0). *)
Definition int_value (v : pyval) : option Z :=
  match v with
  | PInt z => Some z
  | PBool b => Some (if b then 1 else 0)
  | _ => None
  end.

(** [str(type(v))]. *)
Definition str_type (v : pyval) : string :=
  match v with
  | PNone => "<class 'NoneType'>"
  | PBool _ => "<class 'bool'>"
  | PInt _ => "<class 'int'>"
  | PFloat _ => "<class 'float'>"
  | PStr _ => "<class 'str'>"
  | PList _ => "<class 'list'>"
  | PDict _ => "<class 'dict'>"
  end.

(** [str(v)] as an f-string renders an [int] instance. *)
Definition str_int_instance (v : pyval) : string :=
  match v with
  | PInt z => str_Z z
  | PBool true => "True"
  | PBool false => "False"
  | _ => ""
  end.

(** Python range(n) for an int [n]: empty when [n <= 0]. *)
Definition range (n : Z) : list Z := map Z.of_nat (seq 0 (Z.to_nat n)).

(** ** Byte strings and [struct] packing *)

Definition Z_of_byte (b : byte) : Z := Z.of_N (Byte.to_N b).

Definition byte_of_Z (z : Z) : byte :=
  match Byte.of_N (Z.to_N (z mod 256)) with
  | Some b => b
  | None => x00
  end.

(** Big-endian value of a byte string. *)
Definition be_uint (bs : list byte) : Z :=
  fold_left (fun acc b => acc * 256 + Z_of_byte b) bs 0.

(** The eight bytes of [x], most significant first. *)
Definition be_bytes8 (x : Z) : list byte :=
  map (fun k => byte_of_Z (Z.shiftr x (8 * k))) [7; 6; 5; 4; 3; 2; 1; 0].

(** [struct.pack('>Q', x)]: refuses what does not fit 64 unsigned bits. *)
Definition pack_Q (x : Z) : result (list byte) :=
  if (0 <=? x) && (x <? 2 ^ 64) then Ok (be_bytes8 x)
  else Raise (StructError "int too large to convert").

(** [struct.unpack('>Q', data)[0]]: the buffer must hold exactly 8 bytes. *)
Definition unpack_Q (data : list byte) : result Z :=
  if (List.length data =? 8)%nat then Ok (be_uint data)
  else Raise (StructError "unpack requires a buffer of 8 bytes").

(** The slice [data[lo:hi]] for [0 <= lo <= hi]. *)
Definition slice {A : Type} (data : list A) (lo hi : Z) : list A :=
  firstn (Z.to_nat (hi - lo)) (skipn (Z.to_nat lo) data).

(** ** AES-128 on a single block

    [prset.py] obtains its block function from the [cryptography] package
    ([Cipher(algorithms.AES(key), modes.ECB())]); one [update] call on a
    16-byte input is one AES-128 block encryption (FIPS-197). *)
Module AES.

Definition xtime (b : Z) : Z :=
  let s := Z.shiftl b 1 in
  if Z.testbit b 7 then Z.land (Z.lxor s 0x11b) 0xff else s.

Fixpoint gmul_loop (n : nat) (a b acc : Z) : Z :=
  match n with
  | O => acc
  | S n' =>
      gmul_loop n' (xtime a) (Z.shiftr b 1)
                (if Z.odd b then Z.lxor acc a else acc)
  end.

(** Multiplication in GF(2^8) modulo x^8 + x^4 + x^3 + x + 1. *)
Definition gmul (a b : Z) : Z := gmul_loop 8 a b 0.

(** The multiplicative inverse is the 254-th power (0 maps to 0). *)
Definition ginv (a : Z) : Z :=
  let a2 := gmul a a in
  let a4 := gmul a2 a2 in
  let a8 := gmul a4 a4 in
  let a16 := gmul a8 a8 in
  let a32 := gmul a16 a16 in
  let a64 := gmul a32 a32 in
  let a128 := gmul a64 a64 in
  gmul a128 (gmul a64 (gmul a32 (gmul a16 (gmul a8 (gmul a4 a2))))).

Definition rotl8 (b : Z) (n : Z) : Z :=
  Z.land (Z.lor (Z.shiftl b n) (Z.shiftr b (8 - n))) 0xff.

Definition sbox_of (a : Z) : Z :=
  let b := ginv a in
  Z.lxor (Z.lxor (Z.lxor (Z.lxor (Z.lxor b (rotl8 b 1)) (rotl8 b 2))
                         (rotl8 b 3)) (rotl8 b 4)) 0x63.

Definition sbox_table : list Z :=
  Eval vm_compute in map sbox_of (map Z.of_nat (seq 0 256)).

Definition sbox (b : Z) : Z := nth (Z.to_nat b) sbox_table 0.

Fixpoint xor_block (a b : list Z) : list Z :=
  match a, b with
  | x :: a', y :: b' => Z.lxor x y :: xor_block a' b'
  | _, _ => []
  end.

Definition sub_bytes (s : list Z) : list Z := map sbox s.

(** The state is held column after column: byte [r + 4c] is row [r] of
    column [c]; row [r] is rotated left by [r] columns. *)
Definition shift_rows (s : list Z) : list Z :=
  map (fun i => nth ((i + 4 * (i mod 4)) mod 16)%nat s 0) (seq 0 16).

Definition mix_column (a0 a1 a2 a3 : Z) : list Z :=
  [ Z.lxor (Z.lxor (gmul 2 a0) (gmul 3 a1)) (Z.lxor a2 a3);
    Z.lxor (Z.lxor a0 (gmul 2 a1)) (Z.lxor (gmul 3 a2) a3);
    Z.lxor (Z.lxor a0 a1) (Z.lxor (gmul 2 a2) (gmul 3 a3));
    Z.lxor (Z.lxor (gmul 3 a0) a1) (Z.lxor a2 (gmul 2 a3)) ].

Fixpoint mix_columns (s : list Z) : list Z :=
  match s with
  | a0 :: a1 :: a2 :: a3 :: rest => mix_column a0 a1 a2 a3 ++ mix_columns rest
  | _ => []
  end.

(** One step of the key schedule: the next 16-byte round key. *)
Definition next_round_key (rc : Z) (k : list Z) : list Z :=
  match k with
  | [k0; k1; k2; k3; k4; k5; k6; k7; k8; k9; k10; k11; k12; k13; k14; k15] =>
      let a0 := Z.lxor k0 (Z.lxor (sbox k13) rc) in
      let a1 := Z.lxor k1 (sbox k14) in
      let a2 := Z.lxor k2 (sbox k15) in
      let a3 := Z.lxor k3 (sbox k12) in
      let b0 := Z.lxor k4 a0 in
      let b1 := Z.lxor k5 a1 in
      let b2 := Z.lxor k6 a2 in
      let b3 := Z.lxor k7 a3 in
      let c0 := Z.lxor k8 b0 in
      let c1 := Z.lxor k9 b1 in
      let c2 := Z.lxor k10 b2 in
      let c3 := Z.lxor k11 b3 in
      [a0; a1; a2; a3; b0; b1; b2; b3; c0; c1; c2; c3;
       Z.lxor k12 c0; Z.lxor k13 c1; Z.lxor k14 c2; Z.lxor k15 c3]
  | _ => k
  end.

(** Rounds 1 to 9, threading the round key and the round constant. *)
Fixpoint main_rounds (n : nat) (rc : Z) (rk s : list Z)
  : Z * list Z * list Z :=
  match n with
  | O => (rc, rk, s)
  | S n' =>
      let rk' := next_round_key rc rk in
      main_rounds n' (xtime rc) rk'
                  (xor_block (mix_columns (shift_rows (sub_bytes s))) rk')
  end.

Definition encrypt_block_Z (key block : list Z) : list Z :=
  let '(rc, rk, s) := main_rounds 9 1 key (xor_block block key) in
  xor_block (shift_rows (sub_bytes s)) (next_round_key rc rk).

Definition encrypt_block (key block : list byte) : list byte :=
  map byte_of_Z (encrypt_block_Z (map Z_of_byte key) (map Z_of_byte block)).

End AES.

(** ** utils.py *)

Definition DB_ENTRY_SIZE : Z := 8.

Definition uint64_to_bytes (value : Z) : result (list byte) := pack_Q value.

Definition bytes_to_uint64 (data : list byte) : result Z :=
  if negb (List.length data =? 8)%nat then
    Raise (ValueError ("Expected 8 bytes, got "
                         ++ str_Z (Z.of_nat (List.length data)))%string)
  else unpack_Q data.

Definition validate_index (index : pyval) (max_index : Z) : result unit :=
  match int_value index with
  | None =>
      Raise (ValueError ("Index must be integer, got " ++ str_type index)%string)
  | Some i =>
      if i <? 0 then
        Raise (ValueError ("Index cannot be negative: "
                             ++ str_int_instance index)%string)
      else if i >=? max_index then
        Raise (ValueError ("Index " ++ str_int_instance index
                             ++ " out of bounds [0, " ++ str_Z max_index
                             ++ ")")%string)
      else Ok tt
  end.

(** The argument is a [bytes] object by its type here, so only the length
    test of the source remains. *)
Definition validate_prf_key (key_data : list byte) : result unit :=
  if negb (List.length key_data =? 16)%nat then
    Raise (ValueError ("PRF key must be 16 bytes, got "
                         ++ str_Z (Z.of_nat (List.length key_data)))%string)
  else Ok tt.

Definition compute_xor (values : list Z) : Z :=
  fold_left (fun result value => Z.lxor result value) values 0.

(** ** prset.py *)

Module PrfKey128.

Record t : Type := mk { key_bytes : list byte }.

(** The constructor called with explicit key bytes. *)
Definition init (kb : list byte) : result t :=
  if negb (List.length kb =? 16)%nat then
    Raise (ValueError ("PRF key must be 16 bytes, got "
                         ++ str_Z (Z.of_nat (List.length kb)))%string)
  else Ok (mk kb).

End PrfKey128.

Module PRSet.

(** The cipher object is determined by the key; ECB keeps no state
    between [update] calls. *)
Record t : Type := mk { key : PrfKey128.t }.

Definition init (k : PrfKey128.t) : t := mk k.

Definition prf_eval_mod (self : t) (x m : Z) : result Z :=
  if m =? 0 then Ok 0
  else
    packed <- pack_Q x ;;
    let input_block := repeat x00 8 ++ packed in
    let output_block :=
      AES.encrypt_block (PrfKey128.key_bytes (key self)) input_block in
    value <- unpack_Q (firstn 8 output_block) ;;
    Ok (value mod m).

Definition expand (self : t) (set_size chunk_size : Z) : result (list Z) :=
  map_result
    (fun i => offset <- prf_eval_mod self i chunk_size ;;
              Ok (i * chunk_size + offset))
    (range set_size).

End PRSet.

(** ** database.py *)

Module PlinkoDatabase.

Record t : Type := mk { db_path : string; data : list Z; size : Z }.

Definition entry_size : Z := 8.

Definition init (path : string) : t := mk path [] 0.

(** [_wait_for_database]: [present] tells whether the file shows up
    (at once for [timeout <= 0], before the deadline otherwise). *)
Definition wait_for_database (self : t) (timeout : Z) (present : bool)
  : result unit :=
  if timeout <=? 0 then
    if negb present then
      Raise (DatabaseError ("Database file " ++ db_path self
                              ++ " not found")%string)
    else Ok tt
  else if present then Ok tt
  else Raise (DatabaseError ("Timeout waiting for database file at "
                               ++ db_path self)%string).

(** The body of the [try] block of [load], once the file is read. *)
Definition parse (self : t) (binary_data : list byte) : result t :=
  let len := Z.of_nat (List.length binary_data) in
  if negb (len mod entry_size =? 0) then
    Raise (DatabaseError ("Database file size " ++ str_Z len
                            ++ " is not a multiple of entry size "
                            ++ str_Z entry_size)%string)
  else
    let size := len / entry_size in
    entries <- map_result
                 (fun i => let offset := i * entry_size in
                           unpack_Q (slice binary_data offset
                                           (offset + entry_size)))
                 (range size) ;;
    Ok (mk (db_path self) entries size).

(** [load]: [file] is the content found at [db_path], if any.  Every
    exception of the [try] block comes out as a [DatabaseError]. *)
Definition load (self : t) (timeout : Z) (file : option (list byte))
  : result t :=
  wait_for_database self timeout (match file with Some _ => true | None => false end) ;;;
  match file with
  | None =>
      Raise (DatabaseError ("Database file not found: " ++ db_path self)%string)
  | Some binary_data =>
      match parse self binary_data with
      | Ok db => Ok db
      | Raise e =>
          Raise (DatabaseError ("Failed to load database: " ++ str_exn e)%string)
      end
  end.

Definition get_entry (self : t) (index : Z) : result Z :=
  if (index <? 0) || (index >=? size self) then
    Raise (IndexError ("Database index " ++ str_Z index
                         ++ " out of bounds [0, " ++ str_Z (size self)
                         ++ ")")%string)
  else
    match nth_error (data self) (Z.to_nat index) with
    | Some v => Ok v
    | None => Raise (IndexError "list index out of range")
    end.

Definition get_size (self : t) : Z := size self.

End PlinkoDatabase.

(** A value that passed [validate_index] is an [int] instance; this is the
    integer it stands for when used as a subscript or in a comparison. *)
Definition as_index (v : pyval) : Z :=
  match int_value v with
  | Some z => z
  | None => 0
  end.

(** ** plinko_core.py *)

Module ValueResult.
Record t : Type := mk { value : Z; server_time_nanos : Z }.
End ValueResult.

Module ParityResult.
Record t : Type := mk { parity : Z; server_time_nanos : Z }.
End ParityResult.

Module Health.
Record t : Type := mk {
  status : string;
  database_loaded : bool;
  database_size : Z;
  chunk_size : Z;
  set_size : Z
}.
End Health.

Module PlinkoPIRServer.

Record t : Type := mk {
  database : PlinkoDatabase.t;
  db_size : Z;
  chunk_size : Z;
  set_size : Z
}.

Definition init (database : PlinkoDatabase.t) : t :=
  let db_size := PlinkoDatabase.get_size database in
  let chunk_size := Z.max 1 (db_size / 1024) in
  let set_size := Z.max 1 (db_size / chunk_size) in
  mk database db_size chunk_size set_size.

Definition health_check (self : t) : Health.t :=
  Health.mk "healthy" (db_size self >? 0) (db_size self)
            (chunk_size self) (set_size self).

(** [nanos] is the measured [int((end_time - start_time) * 1e9)]. *)
Definition plaintext_query (self : t) (index : pyval) (nanos : Z)
  : result ValueResult.t :=
  validate_index index (db_size self) ;;;
  value <- PlinkoDatabase.get_entry (database self) (as_index index) ;;
  Ok (ValueResult.mk value nanos).

Definition full_set_query (self : t) (prf_key : list byte) (nanos : Z)
  : result ValueResult.t :=
  validate_prf_key prf_key ;;;
  key <- PrfKey128.init prf_key ;;
  let prset := PRSet.init key in
  indices <- PRSet.expand prset (set_size self) (chunk_size self) ;;
  for_each (fun idx => validate_index (PInt idx) (db_size self)) indices ;;;
  values <- map_result
              (fun idx => PlinkoDatabase.get_entry (database self) idx)
              indices ;;
  Ok (ValueResult.mk (compute_xor values) nanos).

Definition set_parity_query (self : t) (indices : list pyval) (nanos : Z)
  : result ParityResult.t :=
  match indices with
  | [] => Raise (ValueError "Indices list cannot be empty")
  | _ :: _ =>
      for_each (fun idx => validate_index idx (db_size self)) indices ;;;
      values <- map_result
                  (fun idx => PlinkoDatabase.get_entry (database self)
                                                       (as_index idx))
                  indices ;;
      Ok (ParityResult.mk (compute_xor values) nanos)
  end.

End PlinkoPIRServer.

(** ** handlers.py *)

Module Handlers.

(** What a handler reads from the Flask request: the method, whether the
    content type announces JSON, the decoded body ([None] when the body
    does not parse, in which case [get_json] raises) and the peer. *)
Record request : Type := mk_request {
  method : string;
  is_json : bool;
  json : option pyval;
  remote_addr : string
}.

(** A handler's [(data, status_code)] pair. *)
Definition response : Type := (pyval * Z)%type.

Fixpoint is_substring (needle hay : string) : bool :=
  String.prefix needle hay
  || match hay with
     | EmptyString => false
     | String _ rest => is_substring needle rest
     end.

(** [field in data]. *)
Definition contains (data : pyval) (field : string) : result bool :=
  match data with
  | PDict d => Ok (existsb (fun kv => String.eqb (fst kv) field) d)
  | PList l =>
      Ok (existsb (fun v => match v with
                            | PStr s => String.eqb s field
                            | _ => false
                            end) l)
  | PStr s => Ok (is_substring field s)
  | _ => Raise (TypeError ("argument of type " ++ str_type data
                             ++ " is not iterable")%string)
  end.

(** [data[field]] for a string subscript. *)
Definition getitem (data : pyval) (field : string) : result pyval :=
  match data with
  | PDict d =>
      match find (fun kv => String.eqb (fst kv) field) d with
      | Some kv => Ok (snd kv)
      | None => Raise (KeyError field)
      end
  | _ => Raise (TypeError "indices must be integers")
  end.

(** [str] of a list of field names. *)
Definition str_fields (fields : list string) : string :=
  ("[" ++ String.concat ", " (map (fun f => "'" ++ f ++ "'") fields) ++ "]")%string.

Definition validate_json_request (required_fields : list string)
           (req : request) : result pyval :=
  if negb (is_json req) then
    Raise (ValueError "Request must contain JSON data")
  else
    match json req with
    | None => Raise (BadRequestError "Failed to decode JSON object")
    | Some PNone => Raise (ValueError "Invalid JSON data")
    | Some data =>
        present <- map_result (fun f => contains data f) required_fields ;;
        let missing_fields :=
          map fst (filter (fun fp => negb (snd fp))
                          (combine required_fields present)) in
        match missing_fields with
        | _ :: _ =>
            Raise (ValueError ("Missing required fields: "
                                 ++ str_fields missing_fields)%string)
        | [] => Ok data
        end
    end.

Definition is_space (c : ascii) : bool :=
  let n := nat_of_ascii c in
  (n =? 32)%nat || ((9 <=? n) && (n <=? 13))%nat.

Definition hex_digit (c : ascii) : option Z :=
  let n := Z.of_nat (nat_of_ascii c) in
  if (48 <=? n) && (n <=? 57) then Some (n - 48)
  else if (97 <=? n) && (n <=? 102) then Some (n - 87)
  else if (65 <=? n) && (n <=? 70) then Some (n - 55)
  else None.

(** [bytes.fromhex]: whitespace is skipped between pairs of digits. *)
Fixpoint fromhex (s : string) : option (list byte) :=
  match s with
  | EmptyString => Some []
  | String c rest =>
      if is_space c then fromhex rest
      else
        match rest with
        | EmptyString => None
        | String d rest' =>
            match hex_digit c, hex_digit d, fromhex rest' with
            | Some hi, Some lo, Some bs => Some (byte_of_Z (16 * hi + lo) :: bs)
            | _, _, _ => None
            end
        end
  end.

(** The [except ValueError] / [except Exception] tail of each handler. *)
Definition respond (r : result response) : response :=
  match r with
  | Ok resp => resp
  | Raise (ValueError msg) => (PDict [("error", PStr msg)], 400)
  | Raise _ => (PDict [("error", PStr "Internal server error")], 500)
  end.

(** [cors_middleware]: an [OPTIONS] request is answered at once; the
    wrapped handlers catch their own exceptions. *)
Definition cors_middleware (func : request -> response) (req : request)
  : response :=
  if String.eqb (method req) "OPTIONS" then (PDict [], 200)
  else func req.

Definition value_body (r : ValueResult.t) : pyval :=
  PDict [("value", PInt (ValueResult.value r));
         ("server_time_nanos", PInt (ValueResult.server_time_nanos r))].

Definition parity_body (r : ParityResult.t) : pyval :=
  PDict [("parity", PInt (ParityResult.parity r));
         ("server_time_nanos", PInt (ParityResult.server_time_nanos r))].

Definition plaintext_query_handler (server : PlinkoPIRServer.t) (nanos : Z)
  : request -> response :=
  cors_middleware (fun req =>
    respond (
      data <- validate_json_request ["index"] req ;;
      index <- getitem data "index" ;;
      (if negb (isinstance_int index) then
         Raise (ValueError "Index must be an integer")
       else Ok tt) ;;;
      validate_index index (PlinkoPIRServer.db_size server) ;;;
      value <- PlinkoDatabase.get_entry (PlinkoPIRServer.database server)
                                        (as_index index) ;;
      Ok (value_body (ValueResult.mk value nanos), 200))).

Definition full_set_query_handler (server : PlinkoPIRServer.t) (nanos : Z)
  : request -> response :=
  cors_middleware (fun req =>
    respond (
      data <- validate_json_request ["prf_key"] req ;;
      prf_key_hex <- getitem data "prf_key" ;;
      match prf_key_hex with
      | PStr hex =>
          prf_key_bytes <-
            match fromhex hex with
            | Some bs => Ok bs
            | None => Raise (ValueError "Invalid hex string for prf_key")
            end ;;
          validate_prf_key prf_key_bytes ;;;
          result <- PlinkoPIRServer.full_set_query server prf_key_bytes nanos ;;
          Ok (value_body result, 200)
      | _ => Raise (ValueError "PRF key must be a hex string")
      end)).

Definition set_parity_query_handler (server : PlinkoPIRServer.t) (nanos : Z)
  : request -> response :=
  cors_middleware (fun req =>
    respond (
      data <- validate_json_request ["indices"] req ;;
      indices <- getitem data "indices" ;;
      match indices with
      | PList l =>
          match l with
          | [] => Raise (ValueError "Indices list cannot be empty")
          | _ :: _ =>
              for_each
                (fun idx =>
                   if negb (isinstance_int idx) then
                     Raise (ValueError "All indices must be integers")
                   else validate_index idx (PlinkoPIRServer.db_size server))
                l ;;;
              result <- PlinkoPIRServer.set_parity_query server l nanos ;;
              Ok (parity_body result, 200)
          end
      | _ => Raise (ValueError "Indices must be a list")
      end)).

Definition health_handler (server : PlinkoPIRServer.t) : request -> response :=
  cors_middleware (fun _ =>
    let h := PlinkoPIRServer.health_check server in
    (PDict [("status", PStr (Health.status h));
            ("database_loaded", PBool (Health.database_loaded h));
            ("database_size", PInt (Health.database_size h));
            ("chunk_size", PInt (Health.chunk_size h));
            ("set_size", PInt (Health.set_size h))], 200)).

End Handlers.

(** ** utils.py: log sanitising

    A [str] is held as the bytes of its UTF-8 encoding; the code points
    32 .. 126 kept by the filter are exactly the bytes 32 .. 126 of that
    encoding, every other code point being made of bytes above 127 or
    being a control character. *)

Definition printable (c : ascii) : bool :=
  let n := nat_of_ascii c in (32 <=? n)%nat && (n <=? 126)%nat.

Fixpoint str_filter (keep : ascii -> bool) (s : string) : string :=
  match s with
  | EmptyString => EmptyString
  | String c rest =>
      if keep c then String c (str_filter keep rest) else str_filter keep rest
  end.

Fixpoint str_take (n : nat) (s : string) : string :=
  match n, s with
  | S n', String c rest => String c (str_take n' rest)
  | _, _ => EmptyString
  end.

(** The slice [s[:k]]: a negative [k] counts from the end. *)
Definition str_upto (s : string) (k : Z) : string :=
  if k <? 0 then str_take (Z.to_nat (Z.of_nat (String.length s) + k)) s
  else str_take (Z.to_nat k) s.

(** Called on a [str]; the default of [max_length] is 100. *)
Definition sanitize_for_logging (data : string) (max_length : Z) : string :=
  let sanitized := str_filter printable data in
  if Z.of_nat (String.length sanitized) >? max_length then
    (str_upto sanitized (max_length - 3) ++ "...")%string
  else sanitized.

(** ** plinko_server.py: the server class of the stand-alone script

    The class keeps its own copy of the query methods, with the checks
    written inline; its index arguments are [int]s. *)

Module PlinkoServer.

Record t : Type := mk {
  database : PlinkoDatabase.t;
  db_size : Z;
  chunk_size : Z;
  set_size : Z
}.

Definition init (database_path : string) : t :=
  mk (PlinkoDatabase.init database_path) 0 0 0.

Definition load_database (self : t) (timeout : Z) (file : option (list byte))
  : result t :=
  db <- PlinkoDatabase.load (database self) timeout file ;;
  let db_size := PlinkoDatabase.get_size db in
  let chunk_size := Z.max 1 (db_size / 1024) in
  let set_size := Z.max 1 (db_size / chunk_size) in
  Ok (mk db db_size chunk_size set_size).

Definition health_check (self : t) : Health.t :=
  Health.mk "healthy" (db_size self >? 0) (db_size self)
            (chunk_size self) (set_size self).

(** [result = 0; for idx in indices: result ^= get_entry(idx)]. *)
Fixpoint xor_entries (db : PlinkoDatabase.t) (indices : list Z) (acc : Z)
  : result Z :=
  match indices with
  | [] => Ok acc
  | idx :: rest =>
      v <- PlinkoDatabase.get_entry db idx ;;
      xor_entries db rest (Z.lxor acc v)
  end.

Definition plaintext_query (self : t) (index : Z) (nanos : Z)
  : result ValueResult.t :=
  (if (index <? 0) || (index >=? db_size self) then
     Raise (ValueError ("Index " ++ str_Z index ++ " out of bounds [0, "
                          ++ str_Z (db_size self) ++ ")")%string)
   else Ok tt) ;;;
  value <- PlinkoDatabase.get_entry (database self) index ;;
  Ok (ValueResult.mk value nanos).

Definition full_set_query (self : t) (prf_key : list byte) (nanos : Z)
  : result ValueResult.t :=
  (if negb (List.length prf_key =? 16)%nat then
     Raise (ValueError ("PRF key must be 16 bytes, got "
                          ++ str_Z (Z.of_nat (List.length prf_key)))%string)
   else Ok tt) ;;;
  key <- PrfKey128.init prf_key ;;
  let prset := PRSet.init key in
  indices <- PRSet.expand prset (set_size self) (chunk_size self) ;;
  for_each (fun idx =>
              if (idx <? 0) || (idx >=? db_size self) then
                Raise (ValueError ("Generated index " ++ str_Z idx
                                     ++ " out of bounds")%string)
              else Ok tt) indices ;;;
  result <- xor_entries (database self) indices 0 ;;
  Ok (ValueResult.mk result nanos).

Definition set_parity_query (self : t) (indices : list Z) (nanos : Z)
  : result ParityResult.t :=
  match indices with
  | [] => Raise (ValueError "Indices list cannot be empty")
  | _ :: _ =>
      for_each (fun idx =>
                  if (idx <? 0) || (idx >=? db_size self) then
                    Raise (ValueError ("Index " ++ str_Z idx
                                         ++ " out of bounds [0, "
                                         ++ str_Z (db_size self) ++ ")")%string)
                  else Ok tt) indices ;;;
      result <- xor_entries (database self) indices 0 ;;
      Ok (ParityResult.mk result nanos)
  end.

End PlinkoServer.

(** ** Reference definitions *)

(** The block handed to the cipher for a scalar input: eight zero bytes
    followed by the scalar, most significant byte first. *)
Definition encode (x : Z) : list byte := repeat x00 8 ++ be_bytes8 x.

(** The leading eight bytes of a block as a big-endian integer. *)
Definition msb64 (block : list byte) : Z := be_uint (firstn 8 block).

(** The value [prf_eval_mod] is documented to compute. *)
Definition prf_value (key : PrfKey128.t) (x m : Z) : Z :=
  if m =? 0 then 0
  else msb64 (AES.encrypt_block (PrfKey128.key_bytes key) (encode x)) mod m.

(** XOR of a sequence of records. *)
Definition xor_all (values : list Z) : Z := fold_right Z.lxor 0 values.

(** The [i]-th 8-byte block of a database file, decoded big-endian. *)
Definition file_record (file : list byte) (i : Z) : Z :=
  be_uint (slice file (8 * i) (8 * i + 8)).

(** A key object as [PrfKey128] can construct it. *)
Definition valid_key (key : PrfKey128.t) : Prop :=
  List.length (PrfKey128.key_bytes key) = 16%nat.

(** A database object whose [size] is the length of its [data], as [load]
    leaves it. *)
Definition consistent (db : PlinkoDatabase.t) : Prop :=
  PlinkoDatabase.size db = Z.of_nat (List.length (PlinkoDatabase.data db)).

(** A request that carries the JSON object [fields]. *)
Definition post_json (fields : list (string * pyval)) (addr : string)
  : Handlers.request :=
  Handlers.mk_request "POST" true (Some (PDict fields)) addr.

Definition hexs (l : list Z) : list byte := map byte_of_Z l.

(** A string made of printable ASCII characters only. *)
Fixpoint printable_string (s : string) : Prop :=
  match s with
  | EmptyString => True
  | String c rest => printable c = true /\ printable_string rest
  end.

(** Two results that are the same value, or both a [ValueError]. *)
Definition same_outcome {A : Type} (r r' : result A) : Prop :=
  match r, r' with
  | Ok a, Ok a' => a = a'
  | Raise (ValueError _), Raise (ValueError _) => True
  | _, _ => False
  end.

(** An element of an index list that [validate_index] accepts for a
    database of [n] records, and the two ways of being rejected. *)
Definition in_bounds (n : Z) (v : pyval) : Prop :=
  exists z, int_value v = Some z /\ 0 <= z < n.

Definition not_an_int (v : pyval) : Prop := isinstance_int v = false.

Definition out_of_bounds (n : Z) (v : pyval) : Prop :=
  exists z, int_value v = Some z /\ ~ 0 <= z < n.

(** The indices a full-set query on [db] reads for [key]. *)
Definition full_set_indices (db : PlinkoDatabase.t) (key : list byte) : list Z :=
  let srv := PlinkoPIRServer.init db in
  map (fun i => i * PlinkoPIRServer.chunk_size srv
                + prf_value (PrfKey128.mk key) i (PlinkoPIRServer.chunk_size srv))
      (range (PlinkoPIRServer.set_size srv)).


(** * Properties *)

(** ** The error monad and its loops *)

Lemma for_each_ok {A : Type} (body : A -> result unit) (xs : list A) :
  for_each body xs = Ok tt <-> Forall (fun x => body x = Ok tt) xs.
Proof.
  induction xs as [|x xs IH]; cbn [for_each].
  - split; [constructor | reflexivity].
  - split.
    + destruct (body x) as [[]|e] eqn:Hx; cbn [bind]; [|discriminate].
      intros H. constructor; [exact Hx | now apply IH].
    + intros H. inversion H as [|? ? Hx Hxs]; subst.
      rewrite Hx. cbn [bind]. now apply IH.
Qed.

Lemma for_each_raise {A : Type} (body : A -> result unit) (xs : list A) e :
  for_each body xs = Raise e -> exists x, In x xs /\ body x = Raise e.
Proof.
  induction xs as [|x xs IH]; cbn [for_each]; [discriminate|].
  destruct (body x) as [[]|e'] eqn:Hx; cbn [bind].
  - intros H. destruct (IH H) as (y & Hy & Hb). exists y. split; [now right | easy].
  - intros [= ->]. exists x. split; [now left | easy].
Qed.

Lemma for_each_total {A : Type} (body : A -> result unit) (xs : list A) :
  for_each body xs = Ok tt \/ exists e, for_each body xs = Raise e.
Proof.
  destruct (for_each body xs) as [[]|e]; [now left | right; now exists e].
Qed.

Lemma map_result_ok {A B : Type} (f : A -> result B) (g : A -> B) xs :
  Forall (fun x => f x = Ok (g x)) xs -> map_result f xs = Ok (map g xs).
Proof.
  induction 1 as [|x xs Hx _ IH]; cbn [map_result map]; [reflexivity|].
  now rewrite Hx, IH.
Qed.

Lemma map_result_inv {A B : Type} (f : A -> result B) xs ys :
  map_result f xs = Ok ys -> Forall2 (fun x y => f x = Ok y) xs ys.
Proof.
  revert ys. induction xs as [|x xs IH]; cbn [map_result]; intros ys.
  - intros [= <-]. constructor.
  - destruct (f x) as [y|e] eqn:Hx; cbn [bind]; [|discriminate].
    destruct (map_result f xs) as [ys'|e]; cbn [bind]; [|discriminate].
    intros [= <-]. constructor; [assumption | now apply IH].
Qed.

Lemma map_result_app {A B : Type} (f : A -> result B) xs ys :
  map_result f (xs ++ ys)
  = (a <- map_result f xs ;; b <- map_result f ys ;; Ok (a ++ b)).
Proof.
  induction xs as [|x xs IH]; cbn [map_result app bind].
  - now destruct (map_result f ys).
  - destruct (f x); cbn [bind]; [|reflexivity].
    rewrite IH. destruct (map_result f xs); cbn [bind]; [|reflexivity].
    now destruct (map_result f ys).
Qed.

Lemma map_result_ext {A B : Type} (f g : A -> result B) xs :
  Forall (fun x => f x = g x) xs -> map_result f xs = map_result g xs.
Proof.
  induction 1 as [|x xs Hx _ IH]; cbn [map_result]; [reflexivity|].
  now rewrite Hx, IH.
Qed.

Lemma map_result_map {A B C : Type} (f : B -> result C) (h : A -> B) xs :
  map_result f (map h xs) = map_result (fun x => f (h x)) xs.
Proof.
  induction xs as [|x xs IH]; cbn [map_result map]; [reflexivity|].
  now rewrite IH.
Qed.

(** ** Ranges *)

Lemma in_range (n x : Z) : In x (range n) <-> 0 <= x < n.
Proof.
  unfold range. rewrite in_map_iff. split.
  - intros (i & <- & Hi). apply in_seq in Hi. lia.
  - intros H. exists (Z.to_nat x). split; [lia|]. apply in_seq. lia.
Qed.

Lemma range_length (n : Z) : List.length (range n) = Z.to_nat n.
Proof. unfold range. now rewrite length_map, length_seq. Qed.

Lemma range_nth (n i : Z) :
  0 <= i < n -> nth (Z.to_nat i) (range n) 0 = i.
Proof.
  intros H. unfold range.
  rewrite (nth_indep _ 0 (Z.of_nat 0)) by (rewrite length_map, length_seq; lia).
  rewrite map_nth, seq_nth by lia. lia.
Qed.

Lemma range_split (a n : Z) :
  0 <= a < n ->
  exists rest, range n = range a ++ a :: rest.
Proof.
  intros H. unfold range.
  replace (Z.to_nat n) with (Z.to_nat a + S (Z.to_nat n - S (Z.to_nat a)))%nat by lia.
  rewrite seq_app, map_app. cbn [seq map Nat.add].
  rewrite Z2Nat.id by lia. eauto.
Qed.

(** ** Bytes *)

Lemma Z_of_byte_range (b : byte) : 0 <= Z_of_byte b < 256.
Proof.
  unfold Z_of_byte. pose proof (Byte.to_N_bounded b). lia.
Qed.

Lemma be_uint_fold_bound (bs : list byte) (acc : Z) :
  0 <= acc ->
  0 <= fold_left (fun a b => a * 256 + Z_of_byte b) bs acc
    < (acc + 1) * 256 ^ Z.of_nat (List.length bs).
Proof.
  revert acc. induction bs as [|b bs IH]; intros acc Hacc; cbn [fold_left List.length].
  - rewrite Z.pow_0_r. lia.
  - pose proof (Z_of_byte_range b) as Hb.
    specialize (IH (acc * 256 + Z_of_byte b) ltac:(lia)).
    rewrite Nat2Z.inj_succ, Z.pow_succ_r by lia.
    assert (0 < 256 ^ Z.of_nat (List.length bs)) by (apply Z.pow_pos_nonneg; lia).
    nia.
Qed.

Lemma be_uint_bound (bs : list byte) :
  0 <= be_uint bs < 256 ^ Z.of_nat (List.length bs).
Proof.
  pose proof (be_uint_fold_bound bs 0 ltac:(lia)) as H.
  unfold be_uint. lia.
Qed.

Lemma pack_Q_ok (x : Z) : 0 <= x < 2 ^ 64 -> pack_Q x = Ok (be_bytes8 x).
Proof.
  intros H. unfold pack_Q.
  destruct (0 <=? x) eqn:H1; destruct (x <? 2 ^ 64) eqn:H2; cbn [andb];
    try reflexivity; lia.
Qed.

Lemma pack_Q_raise (x : Z) :
  ~ 0 <= x < 2 ^ 64 ->
  pack_Q x
  = Raise (StructError "int too large to convert").
Proof.
  intros H. unfold pack_Q.
  destruct (0 <=? x) eqn:H1; destruct (x <? 2 ^ 64) eqn:H2; cbn [andb];
    try reflexivity; lia.
Qed.

Lemma unpack_Q_ok (data : list byte) :
  List.length data = 8%nat -> unpack_Q data = Ok (be_uint data).
Proof. intros H. unfold unpack_Q. now rewrite H. Qed.

(** ** The block cipher returns a block *)

Lemma xor_block_length (a b : list Z) :
  List.length (AES.xor_block a b) = Nat.min (List.length a) (List.length b).
Proof.
  revert b. induction a as [|x a IH]; intros [|y b]; cbn [AES.xor_block List.length Nat.min];
    try reflexivity.
  now rewrite IH.
Qed.

Lemma shift_rows_length (s : list Z) : List.length (AES.shift_rows s) = 16%nat.
Proof. unfold AES.shift_rows. now rewrite length_map, length_seq. Qed.

Lemma next_round_key_length (rc : Z) (k : list Z) :
  List.length (AES.next_round_key rc k) = List.length k.
Proof.
  unfold AES.next_round_key.
  do 16 (destruct k as [|? k]; [reflexivity|]).
  destruct k; reflexivity.
Qed.

Lemma main_rounds_key_length (n : nat) (rc : Z) (rk s : list Z) :
  List.length (snd (fst (AES.main_rounds n rc rk s))) = List.length rk.
Proof.
  revert rc rk s. induction n as [|n IH]; intros rc rk s; cbn [AES.main_rounds].
  - reflexivity.
  - now rewrite IH, next_round_key_length.
Qed.

Lemma encrypt_block_length (key block : list byte) :
  List.length key = 16%nat ->
  List.length (AES.encrypt_block key block) = 16%nat.
Proof.
  intros Hk. unfold AES.encrypt_block, AES.encrypt_block_Z.
  rewrite length_map.
  pose proof (main_rounds_key_length 9 1 (map Z_of_byte key)
                (AES.xor_block (map Z_of_byte block) (map Z_of_byte key))) as H.
  destruct (AES.main_rounds 9 1 _ _) as [[rc rk] s]. cbn [fst snd] in H.
  rewrite xor_block_length, shift_rows_length, next_round_key_length, H.
  rewrite length_map, Hk. reflexivity.
Qed.

(** ** [prf_eval_mod] and [expand] *)

Lemma prf_eval_mod_ok (self : PRSet.t) (x m : Z) :
  valid_key (PRSet.key self) ->
  m = 0 \/ 0 <= x < 2 ^ 64 ->
  PRSet.prf_eval_mod self x m = Ok (prf_value (PRSet.key self) x m).
Proof.
  intros Hk Hx. unfold PRSet.prf_eval_mod, prf_value, msb64, encode.
  destruct (m =? 0) eqn:Hm; [reflexivity|].
  destruct Hx as [Hx|Hx]; [apply Z.eqb_neq in Hm; contradiction|].
  rewrite (pack_Q_ok x Hx). cbn [bind].
  rewrite unpack_Q_ok; [cbn [bind]; reflexivity|].
  rewrite length_firstn, encrypt_block_length by exact Hk. reflexivity.
Qed.

Lemma prf_eval_mod_raise (self : PRSet.t) (x m : Z) :
  m <> 0 -> ~ 0 <= x < 2 ^ 64 ->
  PRSet.prf_eval_mod self x m
  = Raise (StructError "int too large to convert").
Proof.
  intros Hm Hx. unfold PRSet.prf_eval_mod.
  destruct (m =? 0) eqn:E; [lia|].
  now rewrite (pack_Q_raise x Hx).
Qed.

Lemma prf_value_bound (key : PrfKey128.t) (x m : Z) :
  1 <= m -> 0 <= prf_value key x m < m.
Proof.
  intros Hm. unfold prf_value.
  destruct (m =? 0) eqn:E; [lia|]. apply Z.mod_pos_bound. lia.
Qed.

Lemma expand_ok (self : PRSet.t) (k c : Z) :
  valid_key (PRSet.key self) ->
  k <= 2 ^ 64 \/ c = 0 ->
  PRSet.expand self k c
  = Ok (map (fun i => i * c + prf_value (PRSet.key self) i c) (range k)).
Proof.
  intros Hk Hb. unfold PRSet.expand.
  apply map_result_ok, Forall_forall. intros i Hi. apply in_range in Hi.
  rewrite prf_eval_mod_ok; [reflexivity | exact Hk | ].
  destruct Hb; [right; lia | now left].
Qed.

Lemma map_result_range_raise {B : Type} (f : Z -> result B) (g : Z -> B)
      (a n : Z) (e : exn) :
  0 <= a < n ->
  (forall i, 0 <= i < a -> f i = Ok (g i)) ->
  f a = Raise e ->
  map_result f (range n) = Raise e.
Proof.
  intros Ha Hpre Hat.
  destruct (range_split a n Ha) as [rest Hr].
  rewrite Hr, map_result_app.
  rewrite (map_result_ok f g (range a)).
  - cbn [bind map_result]. rewrite Hat. reflexivity.
  - apply Forall_forall. intros i Hi. apply in_range in Hi. auto.
Qed.

Lemma expand_beyond_u64 (self : PRSet.t) (k c : Z) :
  valid_key (PRSet.key self) ->
  c <> 0 -> 2 ^ 64 < k ->
  PRSet.expand self k c
  = Raise (StructError "int too large to convert").
Proof.
  intros Hk Hc Hlt. unfold PRSet.expand.
  apply (map_result_range_raise _
           (fun i => i * c + prf_value (PRSet.key self) i c) (2 ^ 64)).
  - lia.
  - intros i Hi. rewrite prf_eval_mod_ok; [reflexivity | exact Hk | right; lia].
  - rewrite prf_eval_mod_raise by lia. reflexivity.
Qed.

Lemma chunked_sorted (v : Z -> Z) (c : Z) (n s : nat) :
  (forall i, 0 <= v i < c) ->
  StronglySorted Z.lt (map (fun i => i * c + v i) (map Z.of_nat (seq s n))).
Proof.
  intros Hv. revert s. induction n as [|n IH]; intros s; cbn [seq map].
  - constructor.
  - constructor; [apply IH|].
    apply Forall_forall. intros y Hy.
    apply in_map_iff in Hy as (j & <- & Hj).
    apply in_map_iff in Hj as (j' & <- & Hj').
    apply in_seq in Hj'.
    pose proof (Hv (Z.of_nat s)). pose proof (Hv (Z.of_nat j')). nia.
Qed.

Lemma sorted_lt_NoDup (l : list Z) : StronglySorted Z.lt l -> NoDup l.
Proof.
  induction 1 as [|x l _ IH Hall]; constructor; [|exact IH].
  intros Hin. rewrite Forall_forall in Hall. specialize (Hall x Hin). lia.
Qed.

(** ** Index validation *)

Lemma validate_index_ok (v : pyval) (n : Z) :
  validate_index v n = Ok tt <->
  exists z, int_value v = Some z /\ 0 <= z < n.
Proof.
  unfold validate_index. destruct (int_value v) as [z|].
  - destruct (z <? 0) eqn:H1; [|destruct (z >=? n) eqn:H2].
    + split; [discriminate | intros (z' & [= <-] & H); lia].
    + split; [discriminate | intros (z' & [= <-] & H); lia].
    + split; [intros _; exists z; split; [reflexivity | lia] | reflexivity].
  - split; [discriminate | intros (z' & [=] & _)].
Qed.

Lemma validate_index_raises_ValueError (v : pyval) (n : Z) (e : exn) :
  validate_index v n = Raise e -> exists msg, e = ValueError msg.
Proof.
  unfold validate_index. destruct (int_value v) as [z|].
  - destruct (z <? 0); [|destruct (z >=? n)]; intros [=]; subst; eauto.
  - intros [= <-]. eauto.
Qed.

Lemma validate_index_total (v : pyval) (n : Z) :
  validate_index v n = Ok tt \/ exists msg, validate_index v n = Raise (ValueError msg).
Proof.
  destruct (validate_index v n) as [[]|e] eqn:H; [now left|].
  destruct (validate_index_raises_ValueError v n e H) as [msg ->]. eauto.
Qed.

Lemma int_value_isinstance (v : pyval) :
  isinstance_int v = true <-> exists z, int_value v = Some z.
Proof.
  destruct v; cbn; split; try discriminate; eauto; intros [z [=]].
Qed.

Lemma as_index_int_value (v : pyval) (z : Z) :
  int_value v = Some z -> as_index v = z.
Proof. unfold as_index. now intros ->. Qed.

(** ** XOR accumulation *)

Lemma compute_xor_fold (values : list Z) (acc : Z) :
  fold_left (fun result value => Z.lxor result value) values acc
  = Z.lxor acc (xor_all values).
Proof.
  revert acc. induction values as [|v values IH]; intros acc; cbn [fold_left xor_all fold_right].
  - now rewrite Z.lxor_0_r.
  - fold (xor_all values). now rewrite IH, Z.lxor_assoc.
Qed.

Lemma compute_xor_spec (values : list Z) : compute_xor values = xor_all values.
Proof. unfold compute_xor. now rewrite compute_xor_fold, Z.lxor_0_l. Qed.

(** ** Loading the database *)

Lemma slice_length (file : list byte) (i : Z) :
  0 <= i -> 8 * i + 8 <= Z.of_nat (List.length file) ->
  List.length (slice file (i * 8) (i * 8 + 8)) = 8%nat.
Proof.
  intros Hi Hb. unfold slice. rewrite length_firstn, length_skipn. lia.
Qed.

Lemma parse_ok (self : PlinkoDatabase.t) (file : list byte) :
  Z.of_nat (List.length file) mod 8 = 0 ->
  PlinkoDatabase.parse self file
  = Ok (PlinkoDatabase.mk (PlinkoDatabase.db_path self)
          (map (file_record file) (range (Z.of_nat (List.length file) / 8)))
          (Z.of_nat (List.length file) / 8)).
Proof.
  intros Hm. unfold PlinkoDatabase.parse, PlinkoDatabase.entry_size.
  rewrite Hm. cbn [Z.eqb negb].
  rewrite (map_result_ok _ (file_record file)); [reflexivity|].
  apply Forall_forall. intros i Hi. apply in_range in Hi.
  assert (8 * i + 8 <= Z.of_nat (List.length file)).
  { pose proof (Z.div_mod (Z.of_nat (List.length file)) 8 ltac:(lia)). lia. }
  rewrite unpack_Q_ok by (apply slice_length; lia).
  unfold file_record. now replace (8 * i) with (i * 8) by lia.
Qed.

Lemma parse_not_multiple (self : PlinkoDatabase.t) (file : list byte) :
  Z.of_nat (List.length file) mod 8 <> 0 ->
  exists msg, PlinkoDatabase.parse self file = Raise (DatabaseError msg).
Proof.
  intros Hm. unfold PlinkoDatabase.parse, PlinkoDatabase.entry_size.
  apply Z.eqb_neq in Hm. rewrite Hm. cbn [negb]. eauto.
Qed.

Lemma load_ok (self : PlinkoDatabase.t) (timeout : Z) (file : list byte) :
  Z.of_nat (List.length file) mod 8 = 0 ->
  PlinkoDatabase.load self timeout (Some file)
  = Ok (PlinkoDatabase.mk (PlinkoDatabase.db_path self)
          (map (file_record file) (range (Z.of_nat (List.length file) / 8)))
          (Z.of_nat (List.length file) / 8)).
Proof.
  intros Hm. unfold PlinkoDatabase.load, PlinkoDatabase.wait_for_database.
  rewrite (parse_ok self file Hm).
  destruct (timeout <=? 0); reflexivity.
Qed.

Lemma load_inv (self : PlinkoDatabase.t) (timeout : Z) (file : list byte)
      (db : PlinkoDatabase.t) :
  PlinkoDatabase.load self timeout (Some file) = Ok db ->
  Z.of_nat (List.length file) mod 8 = 0
  /\ db = PlinkoDatabase.mk (PlinkoDatabase.db_path self)
            (map (file_record file) (range (Z.of_nat (List.length file) / 8)))
            (Z.of_nat (List.length file) / 8).
Proof.
  intros H.
  destruct (Z.eq_dec (Z.of_nat (List.length file) mod 8) 0) as [Hm|Hm].
  - rewrite (load_ok self timeout file Hm) in H. now injection H as <-.
  - exfalso. destruct (parse_not_multiple self file Hm) as [msg Hp].
    unfold PlinkoDatabase.load, PlinkoDatabase.wait_for_database in H.
    rewrite Hp in H. destruct (timeout <=? 0); discriminate.
Qed.

Lemma load_consistent (self : PlinkoDatabase.t) (timeout : Z) (file : list byte)
      (db : PlinkoDatabase.t) :
  PlinkoDatabase.load self timeout (Some file) = Ok db ->
  consistent db /\ 0 <= PlinkoDatabase.size db.
Proof.
  intros H. apply load_inv in H as [Hm ->]. unfold consistent.
  cbn [PlinkoDatabase.size PlinkoDatabase.data].
  rewrite length_map, range_length.
  pose proof (Z.div_pos (Z.of_nat (List.length file)) 8 ltac:(lia) ltac:(lia)).
  lia.
Qed.

Lemma get_entry_ok (db : PlinkoDatabase.t) (i : Z) :
  consistent db -> 0 <= i < PlinkoDatabase.size db ->
  PlinkoDatabase.get_entry db i
  = Ok (nth (Z.to_nat i) (PlinkoDatabase.data db) 0).
Proof.
  intros Hc Hi. unfold PlinkoDatabase.get_entry.
  destruct (i <? 0) eqn:H1; [lia|].
  destruct (i >=? PlinkoDatabase.size db) eqn:H2; [lia|]. cbn [orb].
  destruct (nth_error (PlinkoDatabase.data db) (Z.to_nat i)) as [v|] eqn:Hn.
  - now rewrite (nth_error_nth _ _ 0 Hn).
  - apply nth_error_None in Hn. unfold consistent in Hc. lia.
Qed.

Lemma loaded_record (file : list byte) (i : Z) :
  0 <= i < Z.of_nat (List.length file) / 8 ->
  nth (Z.to_nat i)
      (map (file_record file) (range (Z.of_nat (List.length file) / 8))) 0
  = file_record file i.
Proof.
  intros Hi.
  rewrite (nth_indep _ 0 (file_record file 0))
    by (rewrite length_map, range_length; lia).
  now rewrite map_nth, range_nth.
Qed.

(** ** Derived PIR parameters *)

Lemma parameter_bounds (db : PlinkoDatabase.t) :
  let srv := PlinkoPIRServer.init db in
  1 <= PlinkoDatabase.size db ->
  1 <= PlinkoPIRServer.chunk_size srv
  /\ 1 <= PlinkoPIRServer.set_size srv <= 2047
  /\ PlinkoPIRServer.set_size srv * PlinkoPIRServer.chunk_size srv
     <= PlinkoDatabase.size db.
Proof.
  cbn zeta. unfold PlinkoPIRServer.init, PlinkoDatabase.get_size.
  cbn [PlinkoPIRServer.chunk_size PlinkoPIRServer.set_size].
  set (n := PlinkoDatabase.size db). intros Hn.
  set (c := Z.max 1 (n / 1024)).
  assert (Hc : 1 <= c) by lia.
  assert (Hcn : c <= n).
  { pose proof (Z.div_le_upper_bound n 1024 n ltac:(lia) ltac:(lia)). lia. }
  assert (Hq : 1 <= n / c) by (apply Z.div_le_lower_bound; lia).
  assert (Hmul : c * (n / c) <= n) by (apply Z.mul_div_le; lia).
  assert (Hup : n / c < 2048).
  { apply Z.div_lt_upper_bound; [lia|].
    pose proof (Z.div_mod n 1024 ltac:(lia)).
    pose proof (Z.mod_pos_bound n 1024 ltac:(lia)). lia. }
  repeat split; lia.
Qed.

(** C2 (as amended).  The server derives chunkSize = max(1, n div 1024) and
    setSize = max(1, n div chunkSize); the product setSize * chunkSize is at
    most n exactly when the database holds at least one record (on an empty
    database both parameters are 1). *)
Theorem derived_parameters (db : PlinkoDatabase.t) :
  let n := PlinkoDatabase.size db in
  let srv := PlinkoPIRServer.init db in
  PlinkoPIRServer.db_size srv = n
  /\ PlinkoPIRServer.chunk_size srv = Z.max 1 (n / 1024)
  /\ PlinkoPIRServer.set_size srv
     = Z.max 1 (n / PlinkoPIRServer.chunk_size srv)
  /\ (PlinkoPIRServer.set_size srv * PlinkoPIRServer.chunk_size srv <= n
      <-> 1 <= n).
Proof.
  cbn zeta. repeat split; try reflexivity.
  - intros H. unfold PlinkoPIRServer.init, PlinkoDatabase.get_size in H.
    cbn [PlinkoPIRServer.chunk_size PlinkoPIRServer.set_size] in H. nia.
  - intros H. now apply parameter_bounds.
Qed.

(** C2 fails as stated: on an empty database the derived parameters are
    both 1 and their product exceeds n = 0. *)
Lemma derived_parameters_empty_database :
  let db := PlinkoDatabase.mk "data/database.bin" [] 0 in
  let srv := PlinkoPIRServer.init db in
  PlinkoPIRServer.chunk_size srv = 1
  /\ PlinkoPIRServer.set_size srv = 1
  /\ ~ (PlinkoPIRServer.set_size srv * PlinkoPIRServer.chunk_size srv
        <= PlinkoDatabase.size db).
Proof. cbn. repeat split; lia. Qed.

(** ** PRSet expansion *)

(** C3.  For every key, every set size k >= 0 and every chunk size c, the
    list [expand] returns has exactly k indices and its i-th element is
    i*c + prf_eval_mod(i, c); prf_eval_mod(x, m) is the big-endian value of
    the leading 8 bytes of the AES-128 encryption of the block holding x
    big-endian in its last 8 bytes, reduced mod m, and prf_eval_mod(x, 0)
    is 0; for c >= 1 the i-th element lies in [i*c, (i+1)*c).  A list is
    returned for every k up to 2^64, the largest counter the 64-bit block
    encoding can take (and for every k when c = 0). *)
Theorem expand_spec (self : PRSet.t) (k c : Z) :
  valid_key (PRSet.key self) ->
  0 <= k ->
  (k <= 2 ^ 64 \/ c = 0 -> exists l, PRSet.expand self k c = Ok l)
  /\ (forall x, PRSet.prf_eval_mod self x 0 = Ok 0)
  /\ forall l,
       PRSet.expand self k c = Ok l ->
       Z.of_nat (List.length l) = k
       /\ forall i, 0 <= i < k ->
            exists offset,
              PRSet.prf_eval_mod self i c = Ok offset
              /\ (c <> 0 ->
                  offset
                  = msb64 (AES.encrypt_block
                             (PrfKey128.key_bytes (PRSet.key self))
                             (repeat x00 8 ++ be_bytes8 i)) mod c)
              /\ nth (Z.to_nat i) l 0 = i * c + offset
              /\ (1 <= c -> i * c <= nth (Z.to_nat i) l 0 < (i + 1) * c).
Proof.
  intros Hk Hk0. split; [|split; [reflexivity|]].
  - intros Hb. rewrite expand_ok by assumption. eauto.
  - intros l Hl.
    assert (Hb : k <= 2 ^ 64 \/ c = 0).
    { destruct (Z_le_gt_dec k (2 ^ 64)) as [Hle|Hgt]; [now left|].
      destruct (Z.eq_dec c 0) as [Hc|Hc]; [now right|].
      rewrite expand_beyond_u64 in Hl by (assumption || lia). discriminate. }
    rewrite expand_ok in Hl by assumption. injection Hl as <-.
    split; [rewrite length_map, range_length; lia|].
    intros i Hi. exists (prf_value (PRSet.key self) i c).
    assert (Hnth : nth (Z.to_nat i)
                       (map (fun i => i * c + prf_value (PRSet.key self) i c) (range k)) 0
                   = i * c + prf_value (PRSet.key self) i c).
    { set (f := fun i => i * c + prf_value (PRSet.key self) i c).
      rewrite (nth_indep _ 0 (f 0)) by (rewrite length_map, range_length; lia).
      now rewrite map_nth, range_nth. }
    split; [|split; [|split]].
    + apply prf_eval_mod_ok; [exact Hk|]. destruct Hb; [right; lia | now left].
    + intros Hc. unfold prf_value, encode.
      apply Z.eqb_neq in Hc. now rewrite Hc.
    + exact Hnth.
    + intros Hc. rewrite Hnth.
      pose proof (prf_value_bound (PRSet.key self) i c Hc). lia.
Qed.

Lemma expand_spec_witness :
  exists l,
    PRSet.expand (PRSet.init (PrfKey128.mk (repeat x00 16))) 4 100 = Ok l
    /\ Z.of_nat (List.length l) = 4
    /\ 300 <= nth 3 l 0 < 400.
Proof.
  destruct (expand_spec (PRSet.init (PrfKey128.mk (repeat x00 16))) 4 100)
    as (Hex & _ & Hall).
  - reflexivity.
  - lia.
  - destruct Hex as [l Hl]; [left; lia|]. exists l.
    destruct (Hall l Hl) as [Hlen Hi]. split; [exact Hl|]. split; [exact Hlen|].
    destruct (Hi 3) as (offset & _ & _ & _ & Hchunk); [lia|].
    apply Hchunk. lia.
Defined.

(** C9.  For every key, set size k >= 0 and chunk size c >= 1, the list
    returned by [expand] is strictly increasing, hence holds k pairwise
    distinct indices; a list is returned whenever k <= 2^64. *)
Theorem expand_strictly_increasing (self : PRSet.t) (k c : Z) :
  valid_key (PRSet.key self) ->
  0 <= k ->
  1 <= c ->
  (k <= 2 ^ 64 -> exists l, PRSet.expand self k c = Ok l)
  /\ forall l, PRSet.expand self k c = Ok l ->
       StronglySorted Z.lt l /\ NoDup l /\ Z.of_nat (List.length l) = k.
Proof.
  intros Hk Hk0 Hc. split.
  - intros Hb. rewrite expand_ok by (assumption || now left). eauto.
  - intros l Hl.
    destruct (Z_le_gt_dec k (2 ^ 64)) as [Hb|Hb].
    + rewrite expand_ok in Hl by (assumption || now left).
      injection Hl as <-.
      assert (Hs : StronglySorted Z.lt
                     (map (fun i => i * c + prf_value (PRSet.key self) i c)
                          (range k))).
      { apply chunked_sorted. intros i. now apply prf_value_bound. }
      split; [exact Hs|]. split; [now apply sorted_lt_NoDup|].
      rewrite length_map, range_length. lia.
    + rewrite expand_beyond_u64 in Hl by (assumption || lia). discriminate.
Qed.

Lemma expand_strictly_increasing_witness :
  exists l,
    PRSet.expand (PRSet.init (PrfKey128.mk (repeat x00 16))) 4 100 = Ok l
    /\ StronglySorted Z.lt l /\ NoDup l /\ Z.of_nat (List.length l) = 4.
Proof.
  destruct (expand_strictly_increasing
              (PRSet.init (PrfKey128.mk (repeat x00 16))) 4 100)
    as [Hex Hall].
  - reflexivity.
  - lia.
  - lia.
  - destruct Hex as [l Hl]; [lia|]. exists l. split; [exact Hl | now apply Hall].
Defined.

(** ** Plaintext queries *)

Lemma file_record_range (file : list byte) (i : Z) :
  0 <= i < Z.of_nat (List.length file) / 8 ->
  Z.of_nat (List.length file) mod 8 = 0 ->
  0 <= file_record file i < 2 ^ 64.
Proof.
  intros Hi Hm. unfold file_record.
  pose proof (be_uint_bound (slice file (8 * i) (8 * i + 8))) as Hb.
  replace (8 * i) with (i * 8) in * by lia.
  rewrite slice_length in Hb.
  - change (256 ^ Z.of_nat 8) with (2 ^ 64) in Hb. exact Hb.
  - lia.
  - pose proof (Z.div_mod (Z.of_nat (List.length file)) 8 ltac:(lia)). lia.
Qed.

Lemma plaintext_query_in_range (db : PlinkoDatabase.t) (v : pyval) (z nanos : Z) :
  consistent db ->
  int_value v = Some z ->
  0 <= z < PlinkoDatabase.size db ->
  PlinkoPIRServer.plaintext_query (PlinkoPIRServer.init db) v nanos
  = Ok (ValueResult.mk (nth (Z.to_nat z) (PlinkoDatabase.data db) 0) nanos).
Proof.
  intros Hc Hv Hz. unfold PlinkoPIRServer.plaintext_query.
  cbn [PlinkoPIRServer.init PlinkoPIRServer.db_size PlinkoPIRServer.database].
  unfold PlinkoDatabase.get_size.
  rewrite (proj2 (validate_index_ok v _)) by eauto. cbn [bind].
  rewrite (as_index_int_value v z Hv), get_entry_ok by assumption.
  reflexivity.
Qed.

Lemma plaintext_query_out_of_range (db : PlinkoDatabase.t) (z nanos : Z) :
  ~ 0 <= z < PlinkoDatabase.size db ->
  exists msg,
    PlinkoPIRServer.plaintext_query (PlinkoPIRServer.init db) (PInt z) nanos
    = Raise (ValueError msg).
Proof.
  intros Hz. unfold PlinkoPIRServer.plaintext_query.
  cbn [PlinkoPIRServer.init PlinkoPIRServer.db_size PlinkoPIRServer.database].
  unfold PlinkoDatabase.get_size.
  destruct (validate_index_total (PInt z) (PlinkoDatabase.size db)) as [H|[msg H]].
  - apply validate_index_ok in H as (z' & [= <-] & H). contradiction.
  - rewrite H. cbn [bind]. eauto.
Qed.

(** C6.  Loading a file whose length is a multiple of 8 succeeds with
    n = length / 8 records; for every i in [0, n), [plaintext_query]
    returns the unsigned 64-bit big-endian value of bytes 8i .. 8i+7 of the
    file, and for every integer outside [0, n) it raises instead of
    returning a value. *)
Theorem plaintext_query_spec (path : string) (timeout : Z) (file : list byte) :
  Z.of_nat (List.length file) mod 8 = 0 ->
  exists db,
    PlinkoDatabase.load (PlinkoDatabase.init path) timeout (Some file) = Ok db
    /\ PlinkoPIRServer.db_size (PlinkoPIRServer.init db)
       = Z.of_nat (List.length file) / 8
    /\ forall i nanos,
         (0 <= i < Z.of_nat (List.length file) / 8 ->
          PlinkoPIRServer.plaintext_query (PlinkoPIRServer.init db) (PInt i) nanos
          = Ok (ValueResult.mk
                  (be_uint (firstn 8 (skipn (Z.to_nat (8 * i)) file))) nanos)
          /\ 0 <= be_uint (firstn 8 (skipn (Z.to_nat (8 * i)) file)) < 2 ^ 64)
         /\ (~ 0 <= i < Z.of_nat (List.length file) / 8 ->
             exists msg,
               PlinkoPIRServer.plaintext_query (PlinkoPIRServer.init db)
                                               (PInt i) nanos
               = Raise (ValueError msg)).
Proof.
  intros Hm. eexists. split; [apply load_ok; exact Hm|].
  split; [reflexivity|]. intros i nanos. split.
  - intros Hi.
    assert (Hrec : be_uint (firstn 8 (skipn (Z.to_nat (8 * i)) file))
                   = file_record file i).
    { unfold file_record, slice. do 2 f_equal. lia. }
    rewrite Hrec. split; [|now apply file_record_range].
    rewrite (plaintext_query_in_range _ (PInt i) i).
    + cbn [PlinkoDatabase.data]. now rewrite loaded_record.
    + apply (load_consistent (PlinkoDatabase.init path) timeout file).
      apply load_ok. exact Hm.
    + reflexivity.
    + exact Hi.
  - intros Hi. apply plaintext_query_out_of_range. exact Hi.
Qed.

Lemma plaintext_query_spec_witness :
  exists db,
    PlinkoDatabase.load (PlinkoDatabase.init "data/database.bin") 0
      (Some (hexs [0;0;0;0;0;0;0;0; 0;0;0;0;0;0;0x03;0xe8])) = Ok db
    /\ PlinkoPIRServer.plaintext_query (PlinkoPIRServer.init db) (PInt 1) 7
       = Ok (ValueResult.mk 1000 7).
Proof.
  destruct (plaintext_query_spec "data/database.bin" 0
              (hexs [0;0;0;0;0;0;0;0; 0;0;0;0;0;0;0x03;0xe8]))
    as (db & Hload & _ & Hq).
  - reflexivity.
  - exists db. split; [exact Hload|].
    destruct (Hq 1 7) as [Hin _]. destruct Hin as [Hv _]; [vm_compute; split; [discriminate | reflexivity]|].
    exact Hv.
Defined.

(** ** Health *)


(** ** Set-parity queries *)

Lemma in_bounds_dec (n : Z) (v : pyval) :
  in_bounds n v \/ not_an_int v \/ out_of_bounds n v.
Proof.
  unfold in_bounds, not_an_int, out_of_bounds.
  destruct (int_value v) as [z|] eqn:Hv.
  - destruct (Z_le_gt_dec 0 z), (Z_lt_ge_dec z n);
      try (left; exists z; split; [reflexivity | lia]);
      right; right; exists z; split; (reflexivity || lia).
  - right; left. destruct v; cbn in *; congruence.
Qed.

Lemma in_bounds_exclusive (n : Z) (v : pyval) :
  in_bounds n v -> ~ (not_an_int v \/ out_of_bounds n v).
Proof.
  intros (z & Hv & Hz) [H|(z' & Hv' & Hz')].
  - unfold not_an_int in H. destruct v; cbn in *; congruence.
  - congruence.
Qed.

Lemma validate_all_fail (n : Z) (L : list pyval) :
  (exists e, for_each (fun idx => validate_index idx n) L = Raise e)
  <-> Exists not_an_int L \/ Exists (out_of_bounds n) L.
Proof.
  split.
  - intros [e He]. apply for_each_raise in He as (v & Hin & Hv).
    destruct (in_bounds_dec n v) as [Hb|[Hb|Hb]].
    + apply validate_index_ok in Hb. congruence.
    + left. apply Exists_exists. eauto.
    + right. apply Exists_exists. eauto.
  - intros H.
    destruct (for_each_total (fun idx => validate_index idx n) L) as [Hok|Hr];
      [|exact Hr].
    exfalso. apply for_each_ok in Hok. rewrite Forall_forall in Hok.
    destruct H as [H|H]; apply Exists_exists in H as (v & Hin & Hv);
      apply Hok, validate_index_ok in Hin;
      apply (in_bounds_exclusive n v Hin); auto.
Qed.

Lemma entries_ok (db : PlinkoDatabase.t) (L : list pyval) :
  consistent db ->
  Forall (in_bounds (PlinkoDatabase.size db)) L ->
  map_result (fun idx => PlinkoDatabase.get_entry db (as_index idx)) L
  = Ok (map (fun v => nth (Z.to_nat (as_index v)) (PlinkoDatabase.data db) 0) L).
Proof.
  intros Hc HL. apply map_result_ok.
  eapply Forall_impl; [|exact HL]. intros v (z & Hv & Hz).
  rewrite (as_index_int_value v z Hv). now apply get_entry_ok.
Qed.

Lemma set_parity_query_ok (db : PlinkoDatabase.t) (L : list pyval) (nanos : Z) :
  consistent db ->
  L <> [] ->
  Forall (in_bounds (PlinkoDatabase.size db)) L ->
  PlinkoPIRServer.set_parity_query (PlinkoPIRServer.init db) L nanos
  = Ok (ParityResult.mk
          (xor_all (map (fun v => nth (Z.to_nat (as_index v))
                                      (PlinkoDatabase.data db) 0) L))
          nanos).
Proof.
  intros Hc Hne HL. unfold PlinkoPIRServer.set_parity_query.
  destruct L as [|v L]; [contradiction|].
  cbn [PlinkoPIRServer.init PlinkoPIRServer.db_size PlinkoPIRServer.database].
  unfold PlinkoDatabase.get_size.
  rewrite (proj2 (for_each_ok _ (v :: L))).
  - cbn [bind]. rewrite entries_ok by assumption. cbn [bind].
    now rewrite compute_xor_spec.
  - eapply Forall_impl; [|exact HL]. intros w Hw. now apply validate_index_ok.
Qed.

Lemma set_parity_query_raises (db : PlinkoDatabase.t) (L : list pyval)
      (nanos : Z) (e : exn) :
  consistent db ->
  PlinkoPIRServer.set_parity_query (PlinkoPIRServer.init db) L nanos = Raise e ->
  (exists msg, e = ValueError msg)
  /\ (L = [] \/ Exists not_an_int L
      \/ Exists (out_of_bounds (PlinkoDatabase.size db)) L).
Proof.
  intros Hc H. destruct L as [|v L].
  - cbn in H. injection H as <-. split; eauto.
  - destruct (for_each_total
                (fun idx => validate_index idx (PlinkoDatabase.size db)) (v :: L))
      as [Hok|[e' He']].
    + apply for_each_ok in Hok.
      rewrite set_parity_query_ok in H; try discriminate; try assumption.
      eapply Forall_impl; [|exact Hok]. intros w Hw. now apply validate_index_ok.
    + assert (e = e') as ->.
      { unfold PlinkoPIRServer.set_parity_query in H.
        cbn [PlinkoPIRServer.init PlinkoPIRServer.db_size] in H.
        unfold PlinkoDatabase.get_size in H. rewrite He' in H.
        cbn [bind] in H. congruence. }
      split.
      * apply for_each_raise in He' as (w & _ & Hw).
        now apply validate_index_raises_ValueError in Hw.
      * right. apply validate_all_fail. eauto.
Qed.

(** C5 (as amended).  On a loaded database of n records, [set_parity_query]
    applied to a non-empty list of [int] instances all within [0, n)
    returns the XOR of records[i] over every i of the list, duplicates
    included (a repeated index cancels).  An [int] instance is what
    [isinstance(x, int)] accepts: an integer or a bool, [True] standing for
    index 1 and [False] for index 0.  The query raises if and only if the
    list is empty, some element is not an [int] instance or the value of
    some element lies outside [0, n); every such failure is a [ValueError]
    and no value comes with it. *)
Theorem set_parity_query_spec (path : string) (timeout : Z) (file : list byte)
        (db : PlinkoDatabase.t) (L : list pyval) (nanos : Z) :
  PlinkoDatabase.load (PlinkoDatabase.init path) timeout (Some file) = Ok db ->
  let srv := PlinkoPIRServer.init db in
  let n := PlinkoPIRServer.db_size srv in
  (L <> [] -> Forall (in_bounds n) L ->
   PlinkoPIRServer.set_parity_query srv L nanos
   = Ok (ParityResult.mk
           (xor_all (map (fun v => file_record file (as_index v)) L)) nanos))
  /\ ((exists e, PlinkoPIRServer.set_parity_query srv L nanos = Raise e)
      <-> L = [] \/ Exists not_an_int L \/ Exists (out_of_bounds n) L)
  /\ (forall e, PlinkoPIRServer.set_parity_query srv L nanos = Raise e ->
                exists msg, e = ValueError msg)
  /\ (forall v, in_bounds n v ->
                PlinkoPIRServer.set_parity_query srv [v; v] nanos
                = Ok (ParityResult.mk 0 nanos)).
Proof.
  intros Hload. cbn zeta.
  destruct (load_consistent _ _ _ _ Hload) as [Hc Hn].
  change (PlinkoPIRServer.db_size (PlinkoPIRServer.init db))
    with (PlinkoDatabase.size db).
  split; [|split; [|split]].
  - intros Hne HL. rewrite set_parity_query_ok by assumption.
    enough (Hmap : map (fun v => nth (Z.to_nat (as_index v))
                                     (PlinkoDatabase.data db) 0) L
                   = map (fun v => file_record file (as_index v)) L)
      by now rewrite Hmap.
    apply map_ext_in. intros v Hv.
    rewrite Forall_forall in HL. destruct (HL v Hv) as (z & Hz & Hr).
    rewrite (as_index_int_value v z Hz).
    apply load_inv in Hload as [Hm ->]. cbn [PlinkoDatabase.data].
    cbn [PlinkoDatabase.size] in Hr. now apply loaded_record.
  - split.
    + intros [e He]. now apply set_parity_query_raises in He.
    + intros H.
      destruct (PlinkoPIRServer.set_parity_query (PlinkoPIRServer.init db) L nanos)
        as [r|e] eqn:Hq; [exfalso | eauto].
      destruct L as [|v L]; [discriminate|].
      destruct H as [H|H]; [discriminate|].
      apply validate_all_fail in H as [e He].
      unfold PlinkoPIRServer.set_parity_query in Hq.
      cbn [PlinkoPIRServer.init PlinkoPIRServer.db_size] in Hq.
      unfold PlinkoDatabase.get_size in Hq. rewrite He in Hq. discriminate.
  - intros e He. now apply set_parity_query_raises in He.
  - intros v Hv. rewrite set_parity_query_ok; [|assumption|discriminate|].
    + cbn [map xor_all fold_right].
      now rewrite Z.lxor_0_r, Z.lxor_nilpotent.
    + repeat constructor; assumption.
Qed.

Lemma set_parity_query_spec_witness :
  exists db,
    PlinkoDatabase.load (PlinkoDatabase.init "data/database.bin") 0
      (Some (hexs [0;0;0;0;0;0;0;5; 0;0;0;0;0;0;0x03;0xe8])) = Ok db
    /\ PlinkoPIRServer.set_parity_query (PlinkoPIRServer.init db)
         [PInt 0; PInt 1] 7
       = Ok (ParityResult.mk 1005 7).
Proof.
  eexists. split; [reflexivity|].
  refine (proj1 (set_parity_query_spec "data/database.bin" 0
                   (hexs [0;0;0;0;0;0;0;5; 0;0;0;0;0;0;0x03;0xe8])
                   _ [PInt 0; PInt 1] 7 eq_refl) _ _).
  - discriminate.
  - repeat constructor; eexists; (split; [reflexivity | vm_compute; split; [discriminate | reflexivity]]).
Defined.

(** C5 fails as stated: a list holding the boolean [True], which is not an
    integer, is not rejected; on a database of two records the query
    returns record 1. *)
Lemma set_parity_query_accepts_bool :
  exists db,
    PlinkoDatabase.load (PlinkoDatabase.init "data/database.bin") 0
      (Some (hexs [0;0;0;0;0;0;0;5; 0;0;0;0;0;0;0x03;0xe8])) = Ok db
    /\ (forall z, PBool true <> PInt z)
    /\ PlinkoPIRServer.set_parity_query (PlinkoPIRServer.init db)
         [PBool true] 7
       = Ok (ParityResult.mk 1000 7).
Proof.
  eexists. split; [reflexivity|]. split; [discriminate | reflexivity].
Qed.

(** ** Full-set queries *)

Lemma validate_prf_key_ok (key : list byte) :
  List.length key = 16%nat -> validate_prf_key key = Ok tt.
Proof. intros H. unfold validate_prf_key. now rewrite H. Qed.

Lemma validate_prf_key_raise (key : list byte) :
  List.length key <> 16%nat ->
  validate_prf_key key
  = Raise (ValueError ("PRF key must be 16 bytes, got "
                         ++ str_Z (Z.of_nat (List.length key)))%string).
Proof.
  intros H. unfold validate_prf_key.
  apply Nat.eqb_neq in H. now rewrite H.
Qed.

Lemma PrfKey128_init_ok (key : list byte) :
  List.length key = 16%nat -> PrfKey128.init key = Ok (PrfKey128.mk key).
Proof. intros H. unfold PrfKey128.init. now rewrite H. Qed.

Lemma full_set_expand (db : PlinkoDatabase.t) (key : list byte) :
  List.length key = 16%nat ->
  0 <= PlinkoDatabase.size db ->
  PRSet.expand (PRSet.init (PrfKey128.mk key))
               (PlinkoPIRServer.set_size (PlinkoPIRServer.init db))
               (PlinkoPIRServer.chunk_size (PlinkoPIRServer.init db))
  = Ok (full_set_indices db key).
Proof.
  intros Hk Hn. unfold full_set_indices. cbn zeta.
  apply (expand_ok (PRSet.init (PrfKey128.mk key))); [exact Hk|]. left.
  destruct (Z.eq_dec (PlinkoDatabase.size db) 0) as [H0|H0].
  - unfold PlinkoPIRServer.init, PlinkoDatabase.get_size.
    cbn [PlinkoPIRServer.set_size]. rewrite H0. cbn. lia.
  - pose proof (parameter_bounds db ltac:(lia)) as (_ & Hs & _).
    cbn zeta in Hs. lia.
Qed.

Lemma full_set_indices_in_bounds (db : PlinkoDatabase.t) (key : list byte) :
  1 <= PlinkoDatabase.size db ->
  Forall (fun idx => 0 <= idx < PlinkoDatabase.size db) (full_set_indices db key).
Proof.
  intros Hn. unfold full_set_indices. cbn zeta.
  pose proof (parameter_bounds db Hn) as (Hc & Hs & Hm). cbn zeta in *.
  apply Forall_forall. intros idx Hin.
  apply in_map_iff in Hin as (i & <- & Hi). apply in_range in Hi.
  pose proof (prf_value_bound (PrfKey128.mk key) i _ Hc). nia.
Qed.

Lemma full_set_query_ok (db : PlinkoDatabase.t) (key : list byte) (nanos : Z) :
  consistent db ->
  1 <= PlinkoDatabase.size db ->
  List.length key = 16%nat ->
  PlinkoPIRServer.full_set_query (PlinkoPIRServer.init db) key nanos
  = Ok (ValueResult.mk
          (xor_all (map (fun idx => nth (Z.to_nat idx) (PlinkoDatabase.data db) 0)
                        (full_set_indices db key)))
          nanos).
Proof.
  intros Hc Hn Hk. unfold PlinkoPIRServer.full_set_query.
  rewrite validate_prf_key_ok, PrfKey128_init_ok by exact Hk. cbn [bind].
  rewrite full_set_expand by (assumption || lia). cbn [bind].
  pose proof (full_set_indices_in_bounds db key Hn) as Hb.
  change (PlinkoPIRServer.db_size (PlinkoPIRServer.init db))
    with (PlinkoDatabase.size db).
  change (PlinkoPIRServer.database (PlinkoPIRServer.init db)) with db.
  rewrite (proj2 (for_each_ok _ (full_set_indices db key))).
  - cbn [bind].
    rewrite (map_result_ok _ (fun idx => nth (Z.to_nat idx) (PlinkoDatabase.data db) 0)).
    + cbn [bind]. now rewrite compute_xor_spec.
    + eapply Forall_impl; [|exact Hb]. intros idx Hidx. now apply get_entry_ok.
  - eapply Forall_impl; [|exact Hb]. intros idx Hidx.
    apply validate_index_ok. exists idx. now split.
Qed.

Lemma full_set_query_empty (db : PlinkoDatabase.t) (key : list byte) (nanos : Z) :
  PlinkoDatabase.size db = 0 ->
  List.length key = 16%nat ->
  PlinkoPIRServer.full_set_query (PlinkoPIRServer.init db) key nanos
  = Raise (ValueError "Index 0 out of bounds [0, 0)").
Proof.
  intros Hn Hk. unfold PlinkoPIRServer.full_set_query.
  rewrite validate_prf_key_ok, PrfKey128_init_ok by exact Hk. cbn [bind].
  rewrite full_set_expand by (assumption || lia). cbn [bind].
  unfold full_set_indices, PlinkoPIRServer.init, PlinkoDatabase.get_size.
  cbn [PlinkoPIRServer.db_size PlinkoPIRServer.chunk_size
       PlinkoPIRServer.set_size PlinkoPIRServer.database].
  rewrite Hn.
  change (Z.max 1 (0 / 1024)) with 1. change (Z.max 1 (0 / 1)) with 1.
  change (range 1) with [0]. cbn [map for_each].
  unfold prf_value. change (1 =? 0) with false. cbv iota.
  rewrite Z.mod_1_r. reflexivity.
Qed.

Lemma full_set_query_raises (db : PlinkoDatabase.t) (key : list byte)
      (nanos : Z) (e : exn) :
  consistent db ->
  0 <= PlinkoDatabase.size db ->
  PlinkoPIRServer.full_set_query (PlinkoPIRServer.init db) key nanos = Raise e ->
  (exists msg, e = ValueError msg)
  /\ (List.length key <> 16%nat \/ PlinkoDatabase.size db = 0).
Proof.
  intros Hc Hn H.
  destruct (Nat.eq_dec (List.length key) 16) as [Hk|Hk].
  - destruct (Z.eq_dec (PlinkoDatabase.size db) 0) as [H0|H0].
    + rewrite full_set_query_empty in H by assumption.
      injection H as <-. split; eauto.
    + rewrite full_set_query_ok in H by (assumption || lia). discriminate.
  - unfold PlinkoPIRServer.full_set_query in H.
    rewrite validate_prf_key_raise in H by exact Hk. cbn [bind] in H.
    injection H as <-. split; eauto.
Qed.

(** C1 (as amended).  On a loaded database with at least one record, for
    any 16-byte key, [full_set_query] succeeds and its value equals the
    parity [set_parity_query] returns for the index list produced by
    [PRSet(k).expand(setSize, chunkSize)]: both are the XOR of the records
    that list refers to. *)
Theorem full_set_equals_set_parity (path : string) (timeout : Z)
        (file : list byte) (db : PlinkoDatabase.t) (key : list byte)
        (nanos nanos' : Z) :
  PlinkoDatabase.load (PlinkoDatabase.init path) timeout (Some file) = Ok db ->
  1 <= PlinkoDatabase.get_size db ->
  List.length key = 16%nat ->
  let srv := PlinkoPIRServer.init db in
  exists indices value,
    (k <- PrfKey128.init key ;;
     PRSet.expand (PRSet.init k) (PlinkoPIRServer.set_size srv)
                  (PlinkoPIRServer.chunk_size srv)) = Ok indices
    /\ PlinkoPIRServer.full_set_query srv key nanos
       = Ok (ValueResult.mk value nanos)
    /\ PlinkoPIRServer.set_parity_query srv (map PInt indices) nanos'
       = Ok (ParityResult.mk value nanos')
    /\ value = xor_all (map (file_record file) indices).
Proof.
  intros Hload Hn Hk. cbn zeta. unfold PlinkoDatabase.get_size in Hn.
  destruct (load_consistent _ _ _ _ Hload) as [Hc _].
  pose proof (full_set_indices_in_bounds db key Hn) as Hb.
  exists (full_set_indices db key).
  exists (xor_all (map (fun idx => nth (Z.to_nat idx) (PlinkoDatabase.data db) 0)
                       (full_set_indices db key))).
  split; [|split; [|split]].
  - rewrite PrfKey128_init_ok by exact Hk. cbn [bind].
    apply full_set_expand; [exact Hk | lia].
  - now apply full_set_query_ok.
  - rewrite set_parity_query_ok.
    + now rewrite map_map.
    + exact Hc.
    + unfold full_set_indices. cbn zeta.
      pose proof (parameter_bounds db Hn) as (_ & Hs & _). cbn zeta in Hs.
      destruct (range_split 0 (PlinkoPIRServer.set_size (PlinkoPIRServer.init db))
                            ltac:(lia)) as [rest ->].
      discriminate.
    + apply Forall_map. eapply Forall_impl; [|exact Hb].
      intros idx Hidx. exists idx. now split.
  - f_equal. apply map_ext_in. intros idx Hidx.
    rewrite Forall_forall in Hb. specialize (Hb idx Hidx).
    apply load_inv in Hload as [Hm ->]. cbn [PlinkoDatabase.data].
    cbn [PlinkoDatabase.size] in Hb. now apply loaded_record.
Qed.

Lemma full_set_equals_set_parity_witness :
  exists db value,
    PlinkoDatabase.load (PlinkoDatabase.init "data/database.bin") 0
      (Some (hexs [0;0;0;0;0;0;0;5; 0;0;0;0;0;0;0x03;0xe8])) = Ok db
    /\ PlinkoPIRServer.full_set_query (PlinkoPIRServer.init db)
         (repeat x00 16) 7 = Ok (ValueResult.mk value 7).
Proof.
  eexists.
  destruct (full_set_equals_set_parity "data/database.bin" 0
              (hexs [0;0;0;0;0;0;0;5; 0;0;0;0;0;0;0x03;0xe8])
              _ (repeat x00 16) 7 9 eq_refl)
    as (indices & value & _ & Hfull & _).
  - vm_compute. discriminate.
  - reflexivity.
  - exists value. split; [reflexivity | exact Hfull].
Defined.

(** C1 fails as stated: on an empty database the single expanded index 0
    is rejected, so [full_set_query] raises for every 16-byte key. *)
Lemma full_set_query_fails_on_empty_database :
  exists db,
    PlinkoDatabase.load (PlinkoDatabase.init "data/database.bin") 0 (Some [])
    = Ok db
    /\ PlinkoPIRServer.full_set_query (PlinkoPIRServer.init db)
         (repeat x00 16) 0
       = Raise (ValueError "Index 0 out of bounds [0, 0)").
Proof.
  eexists. split; [reflexivity|]. vm_compute. reflexivity.
Qed.

(** ** The HTTP handlers *)

Lemma full_set_handler_eval (srv : PlinkoPIRServer.t) (nanos : Z)
      (hex : string) (key : list byte) (addr : string) :
  Handlers.fromhex hex = Some key ->
  Handlers.full_set_query_handler srv nanos
    (post_json [("prf_key", PStr hex)] addr)
  = Handlers.respond
      (validate_prf_key key ;;;
       result <- PlinkoPIRServer.full_set_query srv key nanos ;;
       Ok (Handlers.value_body result, 200)).
Proof.
  intros Hhex.
  unfold Handlers.full_set_query_handler, Handlers.cors_middleware, post_json.
  cbn -[PlinkoPIRServer.full_set_query validate_prf_key Handlers.fromhex].
  rewrite Hhex. reflexivity.
Qed.

Lemma plaintext_handler_eval (srv : PlinkoPIRServer.t) (nanos z : Z)
      (addr : string) :
  Handlers.plaintext_query_handler srv nanos (post_json [("index", PInt z)] addr)
  = Handlers.respond
      (validate_index (PInt z) (PlinkoPIRServer.db_size srv) ;;;
       value <- PlinkoDatabase.get_entry (PlinkoPIRServer.database srv) z ;;
       Ok (Handlers.value_body (ValueResult.mk value nanos), 200)).
Proof. reflexivity. Qed.

Lemma plaintext_handler_negative (srv : PlinkoPIRServer.t) (nanos z : Z)
      (addr : string) :
  z < 0 ->
  Handlers.plaintext_query_handler srv nanos (post_json [("index", PInt z)] addr)
  = (PDict [("error", PStr ("Index cannot be negative: " ++ str_Z z)%string)], 400).
Proof.
  intros Hz. rewrite plaintext_handler_eval. unfold validate_index.
  cbn [int_value]. apply Z.ltb_lt in Hz. rewrite Hz. reflexivity.
Qed.

(** C4 (as amended).  On a loaded database, every failure of [full_set]
    is a [ValueError]: a key whose length is not 16 bytes, or an expanded
    index outside [0, n), which happens exactly on the empty database.  The
    handler answers both with HTTP 400 and the exception message; no
    full-set failure is answered with HTTP 500. *)
Theorem full_set_failures_are_bad_requests (path : string) (timeout : Z)
        (file : list byte) (db : PlinkoDatabase.t) (key : list byte)
        (nanos : Z) :
  PlinkoDatabase.load (PlinkoDatabase.init path) timeout (Some file) = Ok db ->
  let srv := PlinkoPIRServer.init db in
  (forall e, PlinkoPIRServer.full_set_query srv key nanos = Raise e ->
             (exists msg, e = ValueError msg)
             /\ (List.length key <> 16%nat \/ PlinkoDatabase.get_size db = 0))
  /\ (List.length key <> 16%nat ->
      exists msg, PlinkoPIRServer.full_set_query srv key nanos
                  = Raise (ValueError msg))
  /\ (List.length key = 16%nat -> PlinkoDatabase.get_size db = 0 ->
      PlinkoPIRServer.full_set_query srv key nanos
      = Raise (ValueError "Index 0 out of bounds [0, 0)"))
  /\ forall hex addr,
       Handlers.fromhex hex = Some key ->
       (forall msg,
          PlinkoPIRServer.full_set_query srv key nanos = Raise (ValueError msg) ->
          Handlers.full_set_query_handler srv nanos
            (post_json [("prf_key", PStr hex)] addr)
          = (PDict [("error", PStr msg)], 400))
       /\ snd (Handlers.full_set_query_handler srv nanos
                 (post_json [("prf_key", PStr hex)] addr)) <> 500.
Proof.
  intros Hload. cbn zeta.
  destruct (load_consistent _ _ _ _ Hload) as [Hc Hn].
  split; [|split; [|split]].
  - intros e He. now apply full_set_query_raises in He.
  - intros Hk. unfold PlinkoPIRServer.full_set_query.
    rewrite validate_prf_key_raise by exact Hk. cbn [bind]. eauto.
  - intros Hk H0. now apply full_set_query_empty.
  - intros hex addr Hhex. rewrite (full_set_handler_eval _ _ _ _ _ Hhex). split.
    + intros msg Hq.
      destruct (Nat.eq_dec (List.length key) 16) as [Hk|Hk].
      * rewrite validate_prf_key_ok by exact Hk. cbn [bind].
        rewrite Hq. reflexivity.
      * unfold PlinkoPIRServer.full_set_query in Hq.
        rewrite validate_prf_key_raise in * by exact Hk. cbn [bind] in *.
        injection Hq as <-. reflexivity.
    + destruct (Nat.eq_dec (List.length key) 16) as [Hk|Hk].
      * rewrite validate_prf_key_ok by exact Hk. cbn [bind].
        destruct (PlinkoPIRServer.full_set_query (PlinkoPIRServer.init db) key nanos)
          as [r|e] eqn:Hq; cbn [bind Handlers.respond snd]; [discriminate|].
        apply full_set_query_raises in Hq as [[msg ->] _]; try assumption.
        cbn. discriminate.
      * rewrite validate_prf_key_raise by exact Hk. cbn. discriminate.
Qed.

Lemma full_set_failures_are_bad_requests_witness :
  exists db,
    PlinkoDatabase.load (PlinkoDatabase.init "data/database.bin") 0
      (Some (hexs [0;0;0;0;0;0;0;5; 0;0;0;0;0;0;0x03;0xe8])) = Ok db
    /\ exists msg,
         PlinkoPIRServer.full_set_query (PlinkoPIRServer.init db)
           (repeat x00 15) 7 = Raise (ValueError msg).
Proof.
  eexists. split; [reflexivity|].
  refine (proj1 (proj2 (full_set_failures_are_bad_requests
                          "data/database.bin" 0
                          (hexs [0;0;0;0;0;0;0;5; 0;0;0;0;0;0;0x03;0xe8])
                          _ (repeat x00 15) 7 eq_refl)) _).
  vm_compute. discriminate.
Defined.

(** C4 fails as stated: on an empty database the expanded index 0 lies
    outside [0, 0), and the handler answers a well-formed 16-byte key with
    HTTP 400 and the validator's message, not with HTTP 500. *)
Lemma full_set_handler_out_of_range_is_400 :
  exists db,
    PlinkoDatabase.load (PlinkoDatabase.init "data/database.bin") 0 (Some [])
    = Ok db
    /\ Handlers.fromhex "00000000000000000000000000000000" = Some (repeat x00 16)
    /\ Handlers.full_set_query_handler (PlinkoPIRServer.init db) 0
         (post_json [("prf_key", PStr "00000000000000000000000000000000")]
                    "127.0.0.1")
       = (PDict [("error", PStr "Index 0 out of bounds [0, 0)")], 400).
Proof.
  eexists. split; [reflexivity|]. split; vm_compute; reflexivity.
Qed.

(** C8, evaluated on the code: the error body of a rejected plaintext or
    set-parity request carries the rejected index, so two rejected indices
    give two different HTTP 400 bodies. *)
Theorem error_body_echoes_index :
  exists db,
    PlinkoDatabase.load (PlinkoDatabase.init "data/database.bin") 0
      (Some (hexs [0;0;0;0;0;0;0;5; 0;0;0;0;0;0;0x03;0xe8])) = Ok db
    /\ Handlers.plaintext_query_handler (PlinkoPIRServer.init db) 0
         (post_json [("index", PInt (-1))] "127.0.0.1")
       = (PDict [("error", PStr "Index cannot be negative: -1")], 400)
    /\ Handlers.plaintext_query_handler (PlinkoPIRServer.init db) 0
         (post_json [("index", PInt (-2))] "127.0.0.1")
       = (PDict [("error", PStr "Index cannot be negative: -2")], 400)
    /\ Handlers.plaintext_query_handler (PlinkoPIRServer.init db) 0
         (post_json [("index", PInt 2)] "127.0.0.1")
       = (PDict [("error", PStr "Index 2 out of bounds [0, 2)")], 400)
    /\ Handlers.plaintext_query_handler (PlinkoPIRServer.init db) 0
         (post_json [("index", PInt 7)] "127.0.0.1")
       = (PDict [("error", PStr "Index 7 out of bounds [0, 2)")], 400)
    /\ Handlers.set_parity_query_handler (PlinkoPIRServer.init db) 0
         (post_json [("indices", PList [PInt 0; PInt 7])] "127.0.0.1")
       = (PDict [("error", PStr "Index 7 out of bounds [0, 2)")], 400)
    /\ Handlers.set_parity_query_handler (PlinkoPIRServer.init db) 0
         (post_json [("indices", PList [PInt 0; PInt 9])] "127.0.0.1")
       = (PDict [("error", PStr "Index 9 out of bounds [0, 2)")], 400)
    /\ Handlers.full_set_query_handler (PlinkoPIRServer.init db) 0
         (post_json [("prf_key", PStr "00ff")] "127.0.0.1")
       = (PDict [("error", PStr "PRF key must be 16 bytes, got 2")], 400).
Proof.
  eexists. split; [reflexivity|]. repeat split; vm_compute; reflexivity.
Qed.

(** ** Test vectors

    The cipher model against FIPS-197 (appendices B and C.1) and the
    packing functions against [struct]. *)

Example aes_fips197_appendix_c1 :
  AES.encrypt_block
    (hexs [0x00;0x01;0x02;0x03;0x04;0x05;0x06;0x07;0x08;0x09;0x0a;0x0b;0x0c;0x0d;0x0e;0x0f])
    (hexs [0x00;0x11;0x22;0x33;0x44;0x55;0x66;0x77;0x88;0x99;0xaa;0xbb;0xcc;0xdd;0xee;0xff])
  = hexs [0x69;0xc4;0xe0;0xd8;0x6a;0x7b;0x04;0x30;0xd8;0xcd;0xb7;0x80;0x70;0xb4;0xc5;0x5a].
Proof. vm_compute. reflexivity. Qed.

Example aes_fips197_appendix_b :
  AES.encrypt_block
    (hexs [0x2b;0x7e;0x15;0x16;0x28;0xae;0xd2;0xa6;0xab;0xf7;0x15;0x88;0x09;0xcf;0x4f;0x3c])
    (hexs [0x32;0x43;0xf6;0xa8;0x88;0x5a;0x30;0x8d;0x31;0x31;0x98;0xa2;0xe0;0x37;0x07;0x34])
  = hexs [0x39;0x25;0x84;0x1d;0x02;0xdc;0x09;0xfb;0xdc;0x11;0x85;0x97;0x19;0x6a;0x0b;0x32].
Proof. vm_compute. reflexivity. Qed.

Example aes_zero_key_zero_block :
  AES.encrypt_block (repeat x00 16) (repeat x00 16)
  = hexs [0x66;0xe9;0x4b;0xd4;0xef;0x8a;0x2c;0x3b;0x88;0x4c;0xfa;0x59;0xca;0x34;0x2b;0x2e].
Proof. vm_compute. reflexivity. Qed.

Example pack_Q_1000 : pack_Q 1000 = Ok (hexs [0; 0; 0; 0; 0; 0; 0x03; 0xe8]).
Proof. reflexivity. Qed.

Example bytes_to_uint64_round_trip :
  (data <- uint64_to_bytes 18446744073709551615 ;; bytes_to_uint64 data)
  = Ok 18446744073709551615.
Proof. reflexivity. Qed.

Example compute_xor_scenario : compute_xor [0; 1000; 2000; 3000; 4000] = 32.
Proof. reflexivity. Qed.

Example fromhex_skips_spaces :
  Handlers.fromhex "00 ff 1A" = Some (hexs [0; 0xff; 0x1a]).
Proof. reflexivity. Qed.

Example sbox_known_values : AES.sbox 0x00 = 0x63 /\ AES.sbox 0x53 = 0xed.
Proof. split; reflexivity. Qed.

Example expand_chunk_size_one :
  PRSet.expand (PRSet.init (PrfKey128.mk (repeat x00 16))) 10 1
  = Ok [0; 1; 2; 3; 4; 5; 6; 7; 8; 9].
Proof. vm_compute. reflexivity. Qed.

(** * Further properties of the code *)

(** ** Big-endian packing *)

Lemma Z_of_byte_of_Z (z : Z) : Z_of_byte (byte_of_Z z) = z mod 256.
Proof.
  unfold Z_of_byte, byte_of_Z.
  pose proof (Z.mod_pos_bound z 256 ltac:(lia)) as Hz.
  destruct (Byte.of_N (Z.to_N (z mod 256))) as [b|] eqn:Hb.
  - apply Byte.to_of_N in Hb. rewrite Hb. lia.
  - apply Byte.of_N_None_iff in Hb. lia.
Qed.

Lemma shiftr_step (x k : Z) :
  0 <= k -> Z.shiftr x (8 * (k + 1)) = Z.shiftr x (8 * k) / 256.
Proof.
  intros Hk. replace (8 * (k + 1)) with (8 * k + 8) by lia.
  rewrite <- Z.shiftr_shiftr by lia.
  now rewrite (Z.shiftr_div_pow2 _ 8) by lia.
Qed.

Lemma be_uint_be_bytes8 (x : Z) : 0 <= x < 2 ^ 64 -> be_uint (be_bytes8 x) = x.
Proof.
  intros Hx. unfold be_uint, be_bytes8. cbn [map fold_left].
  rewrite !Z_of_byte_of_Z.
  pose proof (shiftr_step x 0 ltac:(lia)) as H1.
  pose proof (shiftr_step x 1 ltac:(lia)) as H2.
  pose proof (shiftr_step x 2 ltac:(lia)) as H3.
  pose proof (shiftr_step x 3 ltac:(lia)) as H4.
  pose proof (shiftr_step x 4 ltac:(lia)) as H5.
  pose proof (shiftr_step x 5 ltac:(lia)) as H6.
  pose proof (shiftr_step x 6 ltac:(lia)) as H7.
  pose proof (shiftr_step x 7 ltac:(lia)) as H8.
  cbn [Z.add Z.mul Pos.add Pos.mul Pos.succ] in *.
  assert (H0 : Z.shiftr x 0 = x) by apply Z.shiftr_0_r.
  assert (H64 : Z.shiftr x 64 = 0).
  { rewrite Z.shiftr_div_pow2 by lia. apply Z.div_small. lia. }
  generalize dependent (Z.shiftr x 64). generalize dependent (Z.shiftr x 56).
  generalize dependent (Z.shiftr x 48). generalize dependent (Z.shiftr x 40).
  generalize dependent (Z.shiftr x 32). generalize dependent (Z.shiftr x 24).
  generalize dependent (Z.shiftr x 16). generalize dependent (Z.shiftr x 8).
  generalize dependent (Z.shiftr x 0).
  intros s0 -> s1 -> s2 -> s3 -> s4 -> s5 -> s6 -> s7 -> s8 -> Hz.
  pose proof (Z.div_mod x 256 ltac:(lia)).
  pose proof (Z.div_mod (x / 256) 256 ltac:(lia)).
  pose proof (Z.div_mod (x / 256 / 256) 256 ltac:(lia)).
  pose proof (Z.div_mod (x / 256 / 256 / 256) 256 ltac:(lia)).
  pose proof (Z.div_mod (x / 256 / 256 / 256 / 256) 256 ltac:(lia)).
  pose proof (Z.div_mod (x / 256 / 256 / 256 / 256 / 256) 256 ltac:(lia)).
  pose proof (Z.div_mod (x / 256 / 256 / 256 / 256 / 256 / 256) 256 ltac:(lia)).
  pose proof (Z.div_mod (x / 256 / 256 / 256 / 256 / 256 / 256 / 256) 256 ltac:(lia)).
  lia.
Qed.

(** ** XOR accumulation ([utils.py]) *)

Lemma xor_all_app (xs ys : list Z) :
  xor_all (xs ++ ys) = Z.lxor (xor_all xs) (xor_all ys).
Proof.
  induction xs as [|x xs IH]; cbn [app xor_all fold_right].
  - now rewrite Z.lxor_0_l.
  - fold (xor_all (xs ++ ys)). fold (xor_all xs).
    now rewrite IH, Z.lxor_assoc.
Qed.

Lemma xor_all_perm (xs ys : list Z) :
  Permutation xs ys -> xor_all xs = xor_all ys.
Proof.
  induction 1 as [|x xs ys _ IH|x y xs|xs ys zs _ IH1 _ IH2];
    cbn [xor_all fold_right].
  - reflexivity.
  - fold (xor_all xs). fold (xor_all ys). now rewrite IH.
  - fold (xor_all xs). rewrite <- !Z.lxor_assoc. f_equal. apply Z.lxor_comm.
  - congruence.
Qed.

(** X3.  The result of [compute_xor] does not depend on the order of its
    argument list. *)
Theorem compute_xor_order_irrelevant (values values' : list Z) :
  Permutation values values' -> compute_xor values = compute_xor values'.
Proof.
  intros H. rewrite !compute_xor_spec. now apply xor_all_perm.
Qed.

Lemma compute_xor_order_irrelevant_witness :
  compute_xor [1000; 2000; 3000] = compute_xor [2000; 3000; 1000].
Proof.
  apply compute_xor_order_irrelevant.
  exact (Permutation_cons_append [2000; 3000] 1000).
Defined.

(** X4.  [compute_xor] of a concatenation is the XOR of the two partial
    results, the empty list gives 0, and a list followed by itself
    cancels to 0. *)
Theorem compute_xor_concat (xs ys : list Z) :
  compute_xor [] = 0
  /\ compute_xor (xs ++ ys) = Z.lxor (compute_xor xs) (compute_xor ys)
  /\ compute_xor (xs ++ xs) = 0.
Proof.
  rewrite !compute_xor_spec, !xor_all_app, Z.lxor_nilpotent. auto.
Qed.

(** ** Index validation ([utils.py]) *)

(** X5.  [validate_index] returns normally exactly for an [int] instance
    whose value lies in [0, max_index); every rejection is a
    [ValueError], also for a value that is not an [int] at all. *)
Theorem validate_index_spec (index : pyval) (max_index : Z) :
  (validate_index index max_index = Ok tt <-> in_bounds max_index index)
  /\ ((exists msg, validate_index index max_index = Raise (ValueError msg))
      <-> not_an_int index \/ out_of_bounds max_index index)
  /\ forall e, validate_index index max_index = Raise e ->
               exists msg, e = ValueError msg.
Proof.
  split; [apply validate_index_ok|]. split.
  - split.
    + intros [msg H].
      destruct (in_bounds_dec max_index index) as [Hb|Hb]; [|exact Hb].
      apply validate_index_ok in Hb. congruence.
    + intros H.
      destruct (validate_index_total index max_index) as [Hok|Hr]; [|exact Hr].
      apply validate_index_ok in Hok.
      now destruct (in_bounds_exclusive max_index index Hok).
  - apply validate_index_raises_ValueError.
Qed.

(** ** Loading and reading the database ([database.py]) *)

(** X6.  [load] fails with [DatabaseError] when the file is absent,
    whatever the timeout; on a file it succeeds exactly when the length is
    a multiple of 8, giving length/8 records below 2^64 under the same
    path, and otherwise raises [DatabaseError] with the wrapped
    "not a multiple of" message. *)
Theorem load_spec (path : string) (timeout : Z) (file : list byte) :
  let self := PlinkoDatabase.init path in
  let len := Z.of_nat (List.length file) in
  (exists msg, PlinkoDatabase.load self timeout None = Raise (DatabaseError msg))
  /\ (len mod 8 = 0 ->
      exists db,
        PlinkoDatabase.load self timeout (Some file) = Ok db
        /\ PlinkoDatabase.db_path db = path
        /\ PlinkoDatabase.get_size db = len / 8
        /\ Z.of_nat (List.length (PlinkoDatabase.data db)) = len / 8
        /\ Forall (fun v => 0 <= v < 2 ^ 64) (PlinkoDatabase.data db))
  /\ (len mod 8 <> 0 ->
      PlinkoDatabase.load self timeout (Some file)
      = Raise (DatabaseError
                 ("Failed to load database: Database file size "
                    ++ str_Z len ++ " is not a multiple of entry size 8")%string)).
Proof.
  cbn zeta. split; [|split].
  - unfold PlinkoDatabase.load, PlinkoDatabase.wait_for_database.
    destruct (timeout <=? 0); cbn; eauto.
  - intros Hm. eexists. split; [apply load_ok; exact Hm|].
    cbn [PlinkoDatabase.db_path PlinkoDatabase.get_size PlinkoDatabase.size
         PlinkoDatabase.data PlinkoDatabase.init].
    pose proof (Z.div_pos (Z.of_nat (List.length file)) 8 ltac:(lia) ltac:(lia)).
    repeat split.
    + rewrite length_map, range_length. lia.
    + apply Forall_forall. intros v Hv.
      apply in_map_iff in Hv as (i & <- & Hi). apply in_range in Hi.
      now apply file_record_range.
  - intros Hm.
    unfold PlinkoDatabase.load, PlinkoDatabase.wait_for_database,
      PlinkoDatabase.parse, PlinkoDatabase.entry_size.
    apply Z.eqb_neq in Hm. rewrite Hm.
    destruct (timeout <=? 0); reflexivity.
Qed.



Lemma file_record_head (chunk rest : list byte) :
  List.length chunk = 8%nat -> file_record (chunk ++ rest) 0 = be_uint chunk.
Proof.
  intros Hlen. unfold file_record, slice.
  change (Z.to_nat (8 * 0)) with 0%nat.
  change (Z.to_nat (8 * 0 + 8 - 8 * 0)) with 8%nat. cbn [skipn].
  rewrite firstn_app, Hlen, Nat.sub_diag, firstn_O, app_nil_r.
  rewrite <- Hlen. now rewrite firstn_all.
Qed.

Lemma file_record_tail (chunk rest : list byte) (k : nat) :
  List.length chunk = 8%nat ->
  file_record (chunk ++ rest) (Z.of_nat (S k)) = file_record rest (Z.of_nat k).
Proof.
  intros Hlen. unfold file_record, slice.
  replace (8 * Z.of_nat (S k) + 8 - 8 * Z.of_nat (S k))
    with (8 * Z.of_nat k + 8 - 8 * Z.of_nat k) by lia.
  replace (Z.to_nat (8 * Z.of_nat (S k)))
    with (Z.to_nat (8 * Z.of_nat k) + 8)%nat by lia.
  rewrite <- skipn_skipn, skipn_app, Hlen, Nat.sub_diag.
  rewrite <- Hlen at 1. rewrite skipn_all. reflexivity.
Qed.

Lemma records_of_chunks (chunks : list (list byte)) :
  Forall (fun c => List.length c = 8%nat) chunks ->
  map (file_record (List.concat chunks))
      (map Z.of_nat (seq 0 (List.length chunks)))
  = map be_uint chunks.
Proof.
  induction 1 as [|c chunks Hc _ IH]; [reflexivity|].
  cbn [List.length seq map List.concat]. change (Z.of_nat 0) with 0.
  rewrite (file_record_head c (List.concat chunks) Hc). f_equal.
  rewrite <- seq_shift, !map_map.
  rewrite <- IH, map_map. apply map_ext. intros k.
  now apply file_record_tail.
Qed.

Lemma concat_chunks_length (chunks : list (list byte)) :
  Forall (fun c => List.length c = 8%nat) chunks ->
  Z.of_nat (List.length (List.concat chunks)) = 8 * Z.of_nat (List.length chunks).
Proof.
  induction 1 as [|c chunks Hc _ IH]; [reflexivity|].
  cbn [List.concat List.length]. rewrite length_app. lia.
Qed.

(** X8.  Writing a list of values with [uint64_to_bytes], one after the
    other, and loading the resulting file gives a database holding exactly
    these values, in order. *)
Theorem load_packed_records (path : string) (timeout : Z) (values : list Z)
        (chunks : list (list byte)) :
  map_result uint64_to_bytes values = Ok chunks ->
  PlinkoDatabase.load (PlinkoDatabase.init path) timeout (Some (List.concat chunks))
  = Ok (PlinkoDatabase.mk path values (Z.of_nat (List.length values))).
Proof.
  intros Hpack. apply map_result_inv in Hpack.
  assert (Hchunks : Forall (fun c => List.length c = 8%nat) chunks
                    /\ map be_uint chunks = values).
  { induction Hpack as [|v c values chunks Hv _ [IH1 IH2]]; [now split|].
    unfold uint64_to_bytes, pack_Q in Hv.
    destruct ((0 <=? v) && (v <? 2 ^ 64)) eqn:Hr; [|discriminate].
    injection Hv as <-. apply andb_prop in Hr as [H1 H2].
    split; [constructor; [reflexivity | exact IH1]|].
    cbn [map]. rewrite be_uint_be_bytes8 by lia. now f_equal. }
  destruct Hchunks as [Hlen Hval].
  assert (Hn : List.length chunks = List.length values)
    by (rewrite <- Hval; now rewrite length_map).
  pose proof (concat_chunks_length chunks Hlen) as Hcl.
  rewrite load_ok by (rewrite Hcl, Z.mul_comm; apply Z_mod_mult).
  rewrite Hcl, Z.mul_comm, Z.div_mul by lia.
  unfold range. rewrite Nat2Z.id, records_of_chunks by exact Hlen.
  now rewrite Hval, Hn.
Qed.

Lemma load_packed_records_witness :
  PlinkoDatabase.load (PlinkoDatabase.init "data/database.bin") 0
    (Some (List.concat [hexs [0;0;0;0;0;0;0;0]; hexs [0;0;0;0;0;0;0x03;0xe8]]))
  = Ok (PlinkoDatabase.mk "data/database.bin" [0; 1000] 2).
Proof.
  apply (load_packed_records "data/database.bin" 0 [0; 1000]). reflexivity.
Defined.

(** ** Derived parameters and what a full-set query reads ([plinko_core.py]) *)

(** X9.  Whatever the database size, the derived chunk and set sizes are
    at least 1.  For n >= 1 the set size is at most 2047 and the records
    beyond setSize * chunkSize are fewer than chunkSize; for n >= 1024 the
    set size is at least 1024. *)
Theorem derived_parameter_ranges (db : PlinkoDatabase.t) :
  let n := PlinkoDatabase.get_size db in
  let srv := PlinkoPIRServer.init db in
  let c := PlinkoPIRServer.chunk_size srv in
  let k := PlinkoPIRServer.set_size srv in
  1 <= c /\ 1 <= k
  /\ (1 <= n -> k <= 2047 /\ 0 <= n - k * c < c)
  /\ (1024 <= n -> 1024 <= k).
Proof.
  cbn zeta. unfold PlinkoPIRServer.init, PlinkoDatabase.get_size.
  cbn [PlinkoPIRServer.chunk_size PlinkoPIRServer.set_size].
  set (n := PlinkoDatabase.size db). set (c := Z.max 1 (n / 1024)).
  split; [lia|]. split; [lia|]. split.
  - intros Hn. pose proof (parameter_bounds db Hn) as (Hc & Hk & Hm).
    cbn zeta in *. unfold PlinkoPIRServer.init, PlinkoDatabase.get_size in *.
    cbn [PlinkoPIRServer.chunk_size PlinkoPIRServer.set_size] in *.
    fold n in Hc, Hk, Hm. fold c in Hc, Hk, Hm.
    split; [lia|].
    assert (Hcn : c <= n).
    { pose proof (Z.div_le_upper_bound n 1024 n ltac:(lia) ltac:(lia)). lia. }
    assert (Hq : 1 <= n / c) by (apply Z.div_le_lower_bound; lia).
    rewrite Z.max_r by lia.
    pose proof (Z.div_mod n c ltac:(lia)).
    pose proof (Z.mod_pos_bound n c ltac:(lia)). lia.
  - intros Hn.
    assert (Hq : 1 <= n / 1024) by (apply Z.div_le_lower_bound; lia).
    assert (Hc : c = n / 1024) by lia.
    assert (1024 <= n / c).
    { apply Z.div_le_lower_bound; [lia|]. rewrite Hc.
      pose proof (Z.mul_div_le n 1024 ltac:(lia)). lia. }
    lia.
Qed.

Lemma full_set_indices_size (db db' : PlinkoDatabase.t) (key : list byte) :
  PlinkoDatabase.size db = PlinkoDatabase.size db' ->
  full_set_indices db key = full_set_indices db' key.
Proof.
  intros H. unfold full_set_indices, PlinkoPIRServer.init, PlinkoDatabase.get_size.
  cbn [PlinkoPIRServer.chunk_size PlinkoPIRServer.set_size]. now rewrite H.
Qed.

Lemma full_set_indices_covered (db : PlinkoDatabase.t) (key : list byte) :
  1 <= PlinkoDatabase.size db ->
  Forall (fun idx =>
            0 <= idx < PlinkoPIRServer.set_size (PlinkoPIRServer.init db)
                       * PlinkoPIRServer.chunk_size (PlinkoPIRServer.init db))
         (full_set_indices db key).
Proof.
  intros Hn. unfold full_set_indices. cbn zeta.
  pose proof (parameter_bounds db Hn) as (Hc & Hs & Hm). cbn zeta in *.
  apply Forall_forall. intros idx Hin.
  apply in_map_iff in Hin as (i & <- & Hi). apply in_range in Hi.
  pose proof (prf_value_bound (PrfKey128.mk key) i _ Hc). nia.
Qed.

(** X10.  A full-set query never reads a record at or beyond
    setSize * chunkSize: two databases of the same size n >= 1 that agree
    on the records below that bound give the same answer for every
    16-byte key. *)
Theorem full_set_ignores_tail (db db' : PlinkoDatabase.t) (key : list byte)
        (nanos : Z) :
  consistent db -> consistent db' ->
  PlinkoDatabase.size db = PlinkoDatabase.size db' ->
  1 <= PlinkoDatabase.size db ->
  List.length key = 16%nat ->
  (forall i,
     0 <= i < PlinkoPIRServer.set_size (PlinkoPIRServer.init db)
              * PlinkoPIRServer.chunk_size (PlinkoPIRServer.init db) ->
     nth (Z.to_nat i) (PlinkoDatabase.data db) 0
     = nth (Z.to_nat i) (PlinkoDatabase.data db') 0) ->
  PlinkoPIRServer.full_set_query (PlinkoPIRServer.init db) key nanos
  = PlinkoPIRServer.full_set_query (PlinkoPIRServer.init db') key nanos.
Proof.
  intros Hc Hc' Hsz Hn Hk Hagree.
  rewrite !full_set_query_ok by (assumption || lia).
  rewrite <- (full_set_indices_size db db' key Hsz).
  do 3 f_equal. apply map_ext_in. intros idx Hidx.
  pose proof (full_set_indices_covered db key Hn) as Hcov.
  rewrite Forall_forall in Hcov. now apply Hagree, Hcov.
Qed.

Lemma full_set_ignores_tail_witness :
  PlinkoPIRServer.full_set_query
    (PlinkoPIRServer.init
       (PlinkoDatabase.mk "a" (map Z.of_nat (seq 0 2049)) 2049))
    (repeat x00 16) 0
  = PlinkoPIRServer.full_set_query
      (PlinkoPIRServer.init
         (PlinkoDatabase.mk "a" (map Z.of_nat (seq 0 2048) ++ [77]) 2049))
      (repeat x00 16) 0.
Proof.
  apply full_set_ignores_tail; try reflexivity.
  - vm_compute. discriminate.
  - intros i Hi.
    change (PlinkoPIRServer.set_size _ * PlinkoPIRServer.chunk_size _)
      with 2048 in Hi.
    cbn [PlinkoDatabase.data].
    change (seq 0 2049) with (seq 0 (2048 + 1)).
    rewrite seq_app, map_app.
    rewrite !app_nth1 by (rewrite length_map, length_seq; lia).
    reflexivity.
Defined.

(** ** The PRF of a PRSet ([prset.py]) *)

(** X11.  For a 16-byte key, [prf_eval_mod(x, m)] returns 0 when m = 0
    without looking at x; for m <> 0 it returns a value exactly when
    0 <= x < 2^64, in [0, m) for positive m and in (m, 0] for negative m,
    and raises [struct.error] for any other x. *)
Theorem prf_eval_mod_spec (self : PRSet.t) (x m : Z) :
  valid_key (PRSet.key self) ->
  (m = 0 -> PRSet.prf_eval_mod self x m = Ok 0)
  /\ (m <> 0 -> 0 <= x < 2 ^ 64 ->
      exists r, PRSet.prf_eval_mod self x m = Ok r
                /\ (0 < m -> 0 <= r < m) /\ (m < 0 -> m < r <= 0))
  /\ (m <> 0 -> ~ 0 <= x < 2 ^ 64 ->
      exists msg, PRSet.prf_eval_mod self x m = Raise (StructError msg)).
Proof.
  intros Hk. split; [|split].
  - intros ->. reflexivity.
  - intros Hm Hx. rewrite prf_eval_mod_ok by (assumption || now right).
    eexists. split; [reflexivity|]. unfold prf_value.
    apply Z.eqb_neq in Hm as Hm'. rewrite Hm'.
    split; intros Hs.
    + apply Z.mod_pos_bound. lia.
    + apply Z.mod_neg_bound. lia.
  - intros Hm Hx. rewrite prf_eval_mod_raise by assumption. eauto.
Qed.

Lemma prf_eval_mod_spec_witness :
  exists r,
    PRSet.prf_eval_mod (PRSet.init (PrfKey128.mk (repeat x00 16))) 5 100 = Ok r
    /\ 0 <= r < 100.
Proof.
  destruct (prf_eval_mod_spec (PRSet.init (PrfKey128.mk (repeat x00 16))) 5 100
              eq_refl) as (_ & H & _).
  destruct H as (r & Hr & Hpos & _); [discriminate | lia |].
  exists r. split; [exact Hr | apply Hpos; lia].
Defined.

(** ** Log sanitising ([utils.py]) *)

Lemma str_length_append (a b : string) :
  String.length (a ++ b)%string = (String.length a + String.length b)%nat.
Proof. induction a as [|c a IH]; cbn; [reflexivity | now rewrite IH]. Qed.

Lemma printable_append (a b : string) :
  printable_string a -> printable_string b -> printable_string (a ++ b)%string.
Proof.
  induction a as [|c a IH]; cbn; [auto|]. intros [Hc Ha] Hb. split; auto.
Qed.

Lemma str_filter_printable (s : string) :
  printable_string (str_filter printable s).
Proof.
  induction s as [|c s IH]; cbn [str_filter]; [exact I|].
  destruct (printable c) eqn:Hc; [split; assumption | assumption].
Qed.

Lemma str_filter_id (s : string) :
  printable_string s -> str_filter printable s = s.
Proof.
  induction s as [|c s IH]; cbn [str_filter printable_string]; [reflexivity|].
  intros [Hc Hs]. now rewrite Hc, IH.
Qed.

Lemma str_take_length (n : nat) (s : string) :
  String.length (str_take n s) = Nat.min n (String.length s).
Proof.
  revert s. induction n as [|n IH]; intros [|c s]; cbn; try reflexivity.
  now rewrite IH.
Qed.

Lemma str_take_printable (n : nat) (s : string) :
  printable_string s -> printable_string (str_take n s).
Proof.
  revert s. induction n as [|n IH]; intros [|c s]; cbn; auto.
  intros [Hc Hs]. split; auto.
Qed.

Lemma sanitize_printable (data : string) (max_length : Z) :
  printable_string (sanitize_for_logging data max_length).
Proof.
  unfold sanitize_for_logging, str_upto. cbn zeta.
  pose proof (str_filter_printable data) as Hp.
  destruct (_ >? max_length); [|exact Hp].
  apply printable_append; [|cbn; repeat split].
  destruct (max_length - 3 <? 0); now apply str_take_printable.
Qed.

Lemma sanitize_length (data : string) (max_length : Z) :
  3 <= max_length ->
  Z.of_nat (String.length (sanitize_for_logging data max_length)) <= max_length.
Proof.
  intros Hm. unfold sanitize_for_logging, str_upto. cbn zeta.
  destruct (_ >? max_length) eqn:Hgt; [|lia].
  destruct (max_length - 3 <? 0) eqn:Hneg; [lia|].
  rewrite str_length_append, str_take_length. cbn [String.length]. lia.
Qed.

Lemma sanitize_id (data : string) (max_length : Z) :
  printable_string data ->
  Z.of_nat (String.length data) <= max_length ->
  sanitize_for_logging data max_length = data.
Proof.
  intros Hp Hl. unfold sanitize_for_logging. cbn zeta.
  rewrite (str_filter_id data Hp).
  destruct (_ >? max_length) eqn:Hgt; [lia | reflexivity].
Qed.

(** X12.  The result of [sanitize_for_logging] holds printable ASCII
    characters only (no newline or other control character); for
    max_length >= 3 it is at most max_length characters long; a printable
    input within the limit comes back unchanged, so sanitising twice is
    the same as sanitising once. *)
Theorem sanitize_for_logging_spec (data : string) (max_length : Z) :
  printable_string (sanitize_for_logging data max_length)
  /\ (3 <= max_length ->
      Z.of_nat (String.length (sanitize_for_logging data max_length))
      <= max_length)
  /\ (printable_string data -> Z.of_nat (String.length data) <= max_length ->
      sanitize_for_logging data max_length = data)
  /\ (3 <= max_length ->
      sanitize_for_logging (sanitize_for_logging data max_length) max_length
      = sanitize_for_logging data max_length).
Proof.
  split; [apply sanitize_printable|].
  split; [apply sanitize_length|].
  split; [apply sanitize_id|].
  intros Hm. apply sanitize_id; [apply sanitize_printable | now apply sanitize_length].
Qed.

(** X13.  For a limit below 3 the truncation can return more than
    max_length characters: the slice end max_length - 3 is negative and
    only drops 3 - max_length characters before "..." is appended. *)
Theorem sanitize_for_logging_short_limit (data : string) (max_length : Z) :
  printable_string data ->
  0 <= max_length < 3 ->
  max_length < Z.of_nat (String.length data) ->
  Z.of_nat (String.length (sanitize_for_logging data max_length))
  = Z.max 3 (Z.of_nat (String.length data) + max_length).
Proof.
  intros Hp Hm Hl. unfold sanitize_for_logging, str_upto. cbn zeta.
  rewrite (str_filter_id data Hp).
  destruct (_ >? max_length) eqn:Hgt; [|lia].
  destruct (max_length - 3 <? 0) eqn:Hneg; [|lia].
  rewrite str_length_append, str_take_length. cbn [String.length]. lia.
Qed.

Lemma sanitize_for_logging_short_limit_witness :
  Z.of_nat (String.length (sanitize_for_logging "abcdef" 2)) = 8.
Proof.
  apply (sanitize_for_logging_short_limit "abcdef" 2).
  - cbn. repeat split.
  - lia.
  - cbn. lia.
Defined.

(** ** The two server classes ([plinko_server.py] and [plinko_core.py]) *)

Lemma inline_checks (msg : Z -> string) (n : Z) (L : list Z) :
  (Forall (fun idx => 0 <= idx < n) L ->
   for_each (fun idx => if (idx <? 0) || (idx >=? n)
                        then Raise (ValueError (msg idx)) else Ok tt) L
   = Ok tt)
  /\ (~ Forall (fun idx => 0 <= idx < n) L ->
      exists m,
        for_each (fun idx => if (idx <? 0) || (idx >=? n)
                             then Raise (ValueError (msg idx)) else Ok tt) L
        = Raise (ValueError m)).
Proof.
  induction L as [|x L [IH1 IH2]]; cbn [for_each].
  - split; [reflexivity | intros H; exfalso; apply H; constructor].
  - destruct ((x <? 0) || (x >=? n)) eqn:Hx; cbn [bind].
    + split; [|eauto]. intros H. inversion H; subst. lia.
    + split.
      * intros H. inversion H; subst. auto.
      * intros H. apply IH2. intros HL. apply H. constructor; [lia | exact HL].
Qed.

Lemma xor_entries_ok (db : PlinkoDatabase.t) (L : list Z) (acc : Z) :
  consistent db ->
  Forall (fun idx => 0 <= idx < PlinkoDatabase.size db) L ->
  PlinkoServer.xor_entries db L acc
  = Ok (Z.lxor acc
          (xor_all (map (fun idx => nth (Z.to_nat idx) (PlinkoDatabase.data db) 0) L))).
Proof.
  intros Hc HL. revert acc.
  induction HL as [|x L Hx _ IH]; intros acc; cbn [PlinkoServer.xor_entries map xor_all fold_right].
  - now rewrite Z.lxor_0_r.
  - rewrite get_entry_ok by assumption. cbn [bind].
    rewrite IH. fold (xor_all (map (fun idx => nth (Z.to_nat idx)
                                      (PlinkoDatabase.data db) 0) L)).
    now rewrite Z.lxor_assoc.
Qed.

Lemma load_database_inv (path : string) (timeout : Z) (file : list byte)
      (srv : PlinkoServer.t) :
  PlinkoServer.load_database (PlinkoServer.init path) timeout (Some file) = Ok srv ->
  exists db,
    PlinkoDatabase.load (PlinkoDatabase.init path) timeout (Some file) = Ok db
    /\ srv = PlinkoServer.mk db (PlinkoDatabase.size db)
               (PlinkoPIRServer.chunk_size (PlinkoPIRServer.init db))
               (PlinkoPIRServer.set_size (PlinkoPIRServer.init db)).
Proof.
  unfold PlinkoServer.load_database, PlinkoServer.init.
  cbn [PlinkoServer.database].
  destruct (PlinkoDatabase.load _ timeout (Some file)) as [db|e]; cbn [bind];
    [|discriminate].
  intros [= <-]. exists db. split; reflexivity.
Qed.

Lemma Forall_in_range_dec (n : Z) (L : list Z) :
  Forall (fun idx => 0 <= idx < n) L \/ ~ Forall (fun idx => 0 <= idx < n) L.
Proof.
  destruct (Forall_dec (fun idx => 0 <= idx < n)) with (l := L) as [H|H]; auto.
  intros x. destruct (Z_le_gt_dec 0 x), (Z_lt_ge_dec x n); (left; lia) || (right; lia).
Qed.

(** X14.  Once the same file is loaded, the server class of
    [plinko_server.py] and the one of [plinko_core.py] derive the same
    parameters and answer every plaintext, set-parity and full-set query
    alike: the same value, or a [ValueError] in both. *)
Theorem server_classes_agree (path : string) (timeout : Z) (file : list byte)
        (srv : PlinkoServer.t) :
  PlinkoServer.load_database (PlinkoServer.init path) timeout (Some file) = Ok srv ->
  exists db,
    PlinkoDatabase.load (PlinkoDatabase.init path) timeout (Some file) = Ok db
    /\ PlinkoServer.health_check srv
       = PlinkoPIRServer.health_check (PlinkoPIRServer.init db)
    /\ (forall index nanos,
          same_outcome
            (PlinkoServer.plaintext_query srv index nanos)
            (PlinkoPIRServer.plaintext_query (PlinkoPIRServer.init db)
                                             (PInt index) nanos))
    /\ (forall indices nanos,
          same_outcome
            (PlinkoServer.set_parity_query srv indices nanos)
            (PlinkoPIRServer.set_parity_query (PlinkoPIRServer.init db)
                                              (map PInt indices) nanos))
    /\ (forall prf_key nanos,
          same_outcome
            (PlinkoServer.full_set_query srv prf_key nanos)
            (PlinkoPIRServer.full_set_query (PlinkoPIRServer.init db)
                                            prf_key nanos)).
Proof.
  intros Hload. apply load_database_inv in Hload as (db & Hdb & ->).
  exists db. split; [exact Hdb|].
  destruct (load_consistent _ _ _ _ Hdb) as [Hc Hn].
  split; [reflexivity|]. split; [|split].
  - intros index nanos. unfold PlinkoServer.plaintext_query.
    cbn [PlinkoServer.db_size PlinkoServer.database].
    destruct (Z_le_gt_dec 0 index) as [H0|H0];
      [destruct (Z_lt_ge_dec index (PlinkoDatabase.size db)) as [H1|H1]|].
    + rewrite (plaintext_query_in_range db (PInt index) index) by (auto || lia).
      destruct (index <? 0) eqn:E1; [lia|].
      destruct (index >=? PlinkoDatabase.size db) eqn:E2; [lia|].
      cbn [orb bind]. rewrite get_entry_ok by (auto || lia). reflexivity.
    + destruct (plaintext_query_out_of_range db index nanos ltac:(lia)) as [m ->].
      destruct (index <? 0) eqn:E1; [exact I|].
      destruct (index >=? PlinkoDatabase.size db) eqn:E2; [exact I | lia].
    + destruct (plaintext_query_out_of_range db index nanos ltac:(lia)) as [m ->].
      destruct (index <? 0) eqn:E1; [exact I | lia].
  - intros indices nanos. unfold PlinkoServer.set_parity_query.
    cbn [PlinkoServer.db_size PlinkoServer.database].
    destruct indices as [|i L]; [exact I|].
    set (msg := fun idx => ("Index " ++ str_Z idx ++ " out of bounds [0, "
                              ++ str_Z (PlinkoDatabase.size db) ++ ")")%string).
    destruct (inline_checks msg (PlinkoDatabase.size db) (i :: L)) as [Hok Hbad].
    subst msg. cbn beta in Hok, Hbad.
    destruct (Forall_in_range_dec (PlinkoDatabase.size db) (i :: L)) as [HL|HL].
    + rewrite (Hok HL). cbn [bind].
      rewrite xor_entries_ok by assumption. cbn [bind].
      rewrite set_parity_query_ok.
      * cbn [same_outcome]. rewrite Z.lxor_0_l, map_map. reflexivity.
      * exact Hc.
      * discriminate.
      * apply Forall_map. eapply Forall_impl; [|exact HL].
        intros idx Hidx. exists idx. now split.
    + destruct (Hbad HL) as [m ->]. cbn [bind same_outcome].
      destruct (PlinkoPIRServer.set_parity_query (PlinkoPIRServer.init db)
                  (map PInt (i :: L)) nanos) as [r|e] eqn:Hq.
      * exfalso. apply HL.
        assert (Hv : for_each (fun idx => validate_index idx (PlinkoDatabase.size db))
                              (map PInt (i :: L)) = Ok tt).
        { unfold PlinkoPIRServer.set_parity_query in Hq.
          cbn [map PlinkoPIRServer.init PlinkoPIRServer.db_size] in Hq.
          unfold PlinkoDatabase.get_size in Hq. cbn [map].
          destruct (for_each _ (PInt i :: map PInt L)) as [[]|e]; [reflexivity|].
          discriminate. }
        apply for_each_ok in Hv. rewrite Forall_map in Hv.
        eapply Forall_impl; [|exact Hv]. intros idx Hidx.
        apply validate_index_ok in Hidx as (z & [= <-] & Hz). exact Hz.
      * apply set_parity_query_raises in Hq as [[m' ->] _]; [exact I | exact Hc].
  - intros prf_key nanos. unfold PlinkoServer.full_set_query.
    cbn [PlinkoServer.db_size PlinkoServer.database PlinkoServer.set_size
         PlinkoServer.chunk_size].
    destruct (Nat.eq_dec (List.length prf_key) 16) as [Hk|Hk].
    + rewrite Hk, PrfKey128_init_ok by exact Hk. cbn [Nat.eqb negb bind].
      rewrite full_set_expand by assumption. cbn [bind].
      set (msg := fun idx => ("Generated index " ++ str_Z idx
                                ++ " out of bounds")%string).
      destruct (inline_checks msg (PlinkoDatabase.size db)
                              (full_set_indices db prf_key)) as [Hok Hbad].
      subst msg. cbn beta in Hok, Hbad.
      destruct (Z.eq_dec (PlinkoDatabase.size db) 0) as [H0|H0].
      * rewrite full_set_query_empty by assumption.
        destruct Hbad as [m ->]; [|exact I].
        intros HL. unfold full_set_indices in HL. cbn zeta in HL.
        rewrite Forall_map, Forall_forall in HL.
        assert (Hin : In 0 (range (PlinkoPIRServer.set_size (PlinkoPIRServer.init db)))).
        { apply in_range. unfold PlinkoPIRServer.init.
          cbn [PlinkoPIRServer.set_size]. lia. }
        specialize (HL 0 Hin). lia.
      * pose proof (full_set_indices_in_bounds db prf_key ltac:(lia)) as Hb.
        rewrite (Hok Hb). cbn [bind].
        rewrite xor_entries_ok by assumption. cbn [bind].
        rewrite full_set_query_ok by (assumption || lia).
        cbn [same_outcome]. now rewrite Z.lxor_0_l.
    + apply Nat.eqb_neq in Hk as Hk'. rewrite Hk'. cbn [negb bind].
      unfold PlinkoPIRServer.full_set_query.
      rewrite validate_prf_key_raise by exact Hk. exact I.
Qed.

Lemma server_classes_agree_witness :
  exists srv db,
    PlinkoServer.load_database (PlinkoServer.init "data/database.bin") 60
      (Some (hexs [0;0;0;0;0;0;0;5; 0;0;0;0;0;0;0x03;0xe8])) = Ok srv
    /\ PlinkoDatabase.load (PlinkoDatabase.init "data/database.bin") 60
         (Some (hexs [0;0;0;0;0;0;0;5; 0;0;0;0;0;0;0x03;0xe8])) = Ok db
    /\ same_outcome
         (PlinkoServer.plaintext_query srv 1 7)
         (PlinkoPIRServer.plaintext_query (PlinkoPIRServer.init db) (PInt 1) 7).
Proof.
  eexists.
  destruct (server_classes_agree "data/database.bin" 60
              (hexs [0;0;0;0;0;0;0;5; 0;0;0;0;0;0;0x03;0xe8]) _ eq_refl)
    as (db & Hdb & _ & Hp & _).
  exists db. split; [reflexivity|]. split; [exact Hdb | apply Hp].
Defined.

(** X15.  Before [load_database] has run, the server object of
    [plinko_server.py] has all three parameters 0: it reports
    [database_loaded] false, rejects every plaintext and set-parity index
    with [ValueError], and answers a full-set query for any 16-byte key
    with value 0, the XOR of an empty expansion. *)
Theorem unloaded_server_behaviour (path : string) (nanos : Z) :
  let srv := PlinkoServer.init path in
  PlinkoServer.health_check srv = Health.mk "healthy" false 0 0 0
  /\ (forall index,
        exists msg, PlinkoServer.plaintext_query srv index nanos
                    = Raise (ValueError msg))
  /\ (forall indices,
        exists msg, PlinkoServer.set_parity_query srv indices nanos
                    = Raise (ValueError msg))
  /\ (forall prf_key,
        List.length prf_key = 16%nat ->
        PlinkoServer.full_set_query srv prf_key nanos
        = Ok (ValueResult.mk 0 nanos)).
Proof.
  cbn zeta. split; [reflexivity|]. split; [|split].
  - intros index. unfold PlinkoServer.plaintext_query, PlinkoServer.init.
    cbn [PlinkoServer.db_size].
    destruct (index <? 0) eqn:E1; [cbn; eauto|].
    destruct (index >=? 0) eqn:E2; [cbn; eauto | lia].
  - intros [|i L]; [cbn; eauto|].
    unfold PlinkoServer.set_parity_query, PlinkoServer.init.
    cbn [PlinkoServer.db_size for_each].
    destruct (i <? 0) eqn:E1; [cbn; eauto|].
    destruct (i >=? 0) eqn:E2; [cbn; eauto | lia].
  - intros prf_key Hk. unfold PlinkoServer.full_set_query, PlinkoServer.init.
    cbn [PlinkoServer.db_size PlinkoServer.set_size PlinkoServer.chunk_size
         PlinkoServer.database].
    rewrite Hk, PrfKey128_init_ok by exact Hk. reflexivity.
Qed.

(** ** The request handlers ([handlers.py]) *)

Lemma getitem_contains (fields : list (string * pyval)) (name : string) (v : pyval) :
  Handlers.getitem (PDict fields) name = Ok v ->
  Handlers.contains (PDict fields) name = Ok true.
Proof.
  cbn [Handlers.getitem Handlers.contains].
  destruct (find _ fields) as [kv|] eqn:Hf; [|discriminate]. intros _.
  apply find_some in Hf as [Hin Heq]. f_equal.
  apply existsb_exists. eauto.
Qed.

Lemma request_with_field (fields : list (string * pyval)) (name addr : string)
      (v : pyval) :
  Handlers.getitem (PDict fields) name = Ok v ->
  Handlers.validate_json_request [name] (post_json fields addr)
  = Ok (PDict fields).
Proof.
  intros Hv. unfold Handlers.validate_json_request, post_json.
  cbn [Handlers.is_json Handlers.json negb map_result].
  rewrite (getitem_contains fields name v Hv). reflexivity.
Qed.

Lemma checked_validation (n : Z) (L : list pyval) :
  (Forall (in_bounds n) L ->
   for_each (fun idx => if negb (isinstance_int idx)
                        then Raise (ValueError "All indices must be integers")
                        else validate_index idx n) L = Ok tt)
  /\ (~ Forall (in_bounds n) L ->
      exists msg,
        for_each (fun idx => if negb (isinstance_int idx)
                             then Raise (ValueError "All indices must be integers")
                             else validate_index idx n) L
        = Raise (ValueError msg)).
Proof.
  set (body := fun idx => if negb (isinstance_int idx)
                          then Raise (ValueError "All indices must be integers")
                          else validate_index idx n).
  assert (Hbody : forall v, (body v = Ok tt <-> in_bounds n v)
                            /\ forall e, body v = Raise e -> exists m, e = ValueError m).
  { intros v. unfold body. destruct (isinstance_int v) eqn:Hi; cbn [negb].
    - split; [apply validate_index_ok | apply validate_index_raises_ValueError].
    - split; [|intros e [= <-]; eauto].
      split; [discriminate|]. intros (z & Hz & _).
      destruct v; cbn in *; congruence. }
  split.
  - intros HL. apply for_each_ok. eapply Forall_impl; [|exact HL].
    intros v Hv. now apply Hbody.
  - intros HL. destruct (for_each_total body L) as [Hok|[e He]].
    + exfalso. apply HL. apply for_each_ok in Hok.
      eapply Forall_impl; [|exact Hok]. intros v Hv. now apply Hbody.
    + apply for_each_raise in He as Hx. destruct Hx as (v & _ & Hv).
      apply Hbody in Hv as [m ->]. eauto.
Qed.

(** X16.  On a loaded database, a plaintext request whose JSON object
    holds [index] is answered 200 with the record and the measured time
    when the index is an [int] instance with value in [0, n) (a JSON
    boolean is one: [true] reads record 1, [false] record 0), and 400 with
    an error object in every other case (not an [int] instance, negative,
    too large); never 500. *)
Theorem plaintext_handler_spec (path : string) (timeout : Z) (file : list byte)
        (db : PlinkoDatabase.t) (fields : list (string * pyval)) (v : pyval)
        (nanos : Z) (addr : string) :
  PlinkoDatabase.load (PlinkoDatabase.init path) timeout (Some file) = Ok db ->
  Handlers.getitem (PDict fields) "index" = Ok v ->
  let resp := Handlers.plaintext_query_handler (PlinkoPIRServer.init db) nanos
                (post_json fields addr) in
  (in_bounds (PlinkoDatabase.get_size db) v ->
   resp = (PDict [("value", PInt (file_record file (as_index v)));
                  ("server_time_nanos", PInt nanos)], 200))
  /\ (~ in_bounds (PlinkoDatabase.get_size db) v ->
      exists msg, resp = (PDict [("error", PStr msg)], 400)).
Proof.
  intros Hload Hv. cbn zeta.
  destruct (load_consistent _ _ _ _ Hload) as [Hc Hn].
  unfold Handlers.plaintext_query_handler, Handlers.cors_middleware.
  change (String.eqb (Handlers.method (post_json fields addr)) "OPTIONS") with false.
  cbv iota. rewrite (request_with_field fields "index" addr v Hv). cbn [bind].
  rewrite Hv. cbn [bind].
  change (PlinkoPIRServer.db_size (PlinkoPIRServer.init db))
    with (PlinkoDatabase.size db).
  change (PlinkoPIRServer.database (PlinkoPIRServer.init db)) with db.
  unfold PlinkoDatabase.get_size. split.
  - intros Hb. destruct Hb as (z & Hz & Hr) eqn:Hb'.
    assert (Hi : isinstance_int v = true) by (apply int_value_isinstance; eauto).
    rewrite Hi. cbn [negb bind].
    rewrite (proj2 (validate_index_ok v _)) by eauto. cbn [bind].
    rewrite (as_index_int_value v z Hz), get_entry_ok by assumption.
    cbn [bind Handlers.respond Handlers.value_body ValueResult.value
         ValueResult.server_time_nanos].
    apply load_inv in Hload as [Hm ->]. cbn [PlinkoDatabase.data].
    cbn [PlinkoDatabase.size] in Hr. now rewrite loaded_record.
  - intros Hb. destruct (isinstance_int v) eqn:Hi; cbn [negb bind].
    + destruct (validate_index_total v (PlinkoDatabase.size db)) as [Hok|[m Hm]].
      * apply validate_index_ok in Hok. contradiction.
      * rewrite Hm. cbn. eauto.
    + cbn. eauto.
Qed.

Lemma plaintext_handler_spec_witness :
  exists db,
    PlinkoDatabase.load (PlinkoDatabase.init "data/database.bin") 0
      (Some (hexs [0;0;0;0;0;0;0;5; 0;0;0;0;0;0;0x03;0xe8])) = Ok db
    /\ Handlers.plaintext_query_handler (PlinkoPIRServer.init db) 7
         (post_json [("index", PInt 1)] "127.0.0.1")
       = (PDict [("value", PInt 1000); ("server_time_nanos", PInt 7)], 200).
Proof.
  eexists. split; [reflexivity|].
  refine (proj1 (plaintext_handler_spec "data/database.bin" 0
                   (hexs [0;0;0;0;0;0;0;5; 0;0;0;0;0;0;0x03;0xe8])
                   _ [("index", PInt 1)] (PInt 1) 7 "127.0.0.1" eq_refl eq_refl) _).
  exists 1. split; [reflexivity | vm_compute; split; [discriminate | reflexivity]].
Defined.

Lemma set_parity_query_loaded (path : string) (timeout : Z) (file : list byte)
      (db : PlinkoDatabase.t) (L : list pyval) (nanos : Z) :
  PlinkoDatabase.load (PlinkoDatabase.init path) timeout (Some file) = Ok db ->
  L <> [] ->
  Forall (in_bounds (PlinkoDatabase.size db)) L ->
  PlinkoPIRServer.set_parity_query (PlinkoPIRServer.init db) L nanos
  = Ok (ParityResult.mk
          (xor_all (map (fun v => file_record file (as_index v)) L)) nanos).
Proof.
  intros Hload Hne HL.
  destruct (load_consistent _ _ _ _ Hload) as [Hc _].
  rewrite set_parity_query_ok by assumption.
  enough (Hmap : map (fun v => nth (Z.to_nat (as_index v))
                                   (PlinkoDatabase.data db) 0) L
                 = map (fun v => file_record file (as_index v)) L)
    by now rewrite Hmap.
  apply map_ext_in. intros v Hv.
  rewrite Forall_forall in HL. destruct (HL v Hv) as (z & Hz & Hr).
  rewrite (as_index_int_value v z Hz).
  apply load_inv in Hload as [Hm ->]. cbn [PlinkoDatabase.data].
  cbn [PlinkoDatabase.size] in Hr. now apply loaded_record.
Qed.

(** X17.  On a loaded database, a set-parity request whose JSON object
    holds [indices] is answered 200 with the XOR of the addressed records
    exactly when [indices] is a non-empty list of integers in [0, n); an
    empty list, a list with a rejected element and a value that is no list
    are all answered 400 with an error object. *)
Theorem set_parity_handler_spec (path : string) (timeout : Z) (file : list byte)
        (db : PlinkoDatabase.t) (fields : list (string * pyval)) (v : pyval)
        (nanos : Z) (addr : string) :
  PlinkoDatabase.load (PlinkoDatabase.init path) timeout (Some file) = Ok db ->
  Handlers.getitem (PDict fields) "indices" = Ok v ->
  let resp := Handlers.set_parity_query_handler (PlinkoPIRServer.init db) nanos
                (post_json fields addr) in
  (forall L, v = PList L -> L <> [] ->
             Forall (in_bounds (PlinkoDatabase.get_size db)) L ->
             resp = (PDict [("parity",
                             PInt (xor_all (map (fun i => file_record file (as_index i)) L)));
                            ("server_time_nanos", PInt nanos)], 200))
  /\ (forall L, v = PList L ->
                L = [] \/ ~ Forall (in_bounds (PlinkoDatabase.get_size db)) L ->
                exists msg, resp = (PDict [("error", PStr msg)], 400))
  /\ ((forall L, v <> PList L) ->
      resp = (PDict [("error", PStr "Indices must be a list")], 400)).
Proof.
  intros Hload Hv. cbn zeta.
  destruct (load_consistent _ _ _ _ Hload) as [Hc Hn].
  unfold Handlers.set_parity_query_handler, Handlers.cors_middleware.
  change (String.eqb (Handlers.method (post_json fields addr)) "OPTIONS") with false.
  cbv iota. rewrite (request_with_field fields "indices" addr v Hv). cbn [bind].
  rewrite Hv. cbn [bind].
  change (PlinkoPIRServer.db_size (PlinkoPIRServer.init db))
    with (PlinkoDatabase.size db).
  unfold PlinkoDatabase.get_size.
  split; [|split].
  - intros L -> Hne HL. destruct L as [|i L]; [contradiction|].
    rewrite (proj1 (checked_validation _ (i :: L)) HL). cbn [bind].
    rewrite (set_parity_query_loaded path timeout file db (i :: L) nanos)
      by assumption.
    reflexivity.
  - intros L -> [->|HL]; [cbn; eauto|].
    destruct L as [|i L]; [cbn; eauto|].
    destruct (proj2 (checked_validation _ (i :: L)) HL) as [m ->]. cbn. eauto.
  - intros Hnl. destruct v; try reflexivity. now destruct (Hnl l).
Qed.

Lemma set_parity_handler_spec_witness :
  exists db,
    PlinkoDatabase.load (PlinkoDatabase.init "data/database.bin") 0
      (Some (hexs [0;0;0;0;0;0;0;5; 0;0;0;0;0;0;0x03;0xe8])) = Ok db
    /\ Handlers.set_parity_query_handler (PlinkoPIRServer.init db) 7
         (post_json [("indices", PList [PInt 0; PInt 1])] "127.0.0.1")
       = (PDict [("parity", PInt 1005); ("server_time_nanos", PInt 7)], 200).
Proof.
  eexists. split; [reflexivity|].
  refine (proj1 (set_parity_handler_spec "data/database.bin" 0
                   (hexs [0;0;0;0;0;0;0;5; 0;0;0;0;0;0;0x03;0xe8])
                   _ [("indices", PList [PInt 0; PInt 1])] (PList [PInt 0; PInt 1])
                   7 "127.0.0.1" eq_refl eq_refl) [PInt 0; PInt 1] eq_refl _ _).
  - discriminate.
  - repeat constructor; eexists;
      (split; [reflexivity | vm_compute; split; [discriminate | reflexivity]]).
Defined.

Lemma full_set_handler_steps (srv : PlinkoPIRServer.t) (nanos : Z)
      (fields : list (string * pyval)) (v : pyval) (addr : string) :
  Handlers.getitem (PDict fields) "prf_key" = Ok v ->
  Handlers.full_set_query_handler srv nanos (post_json fields addr)
  = Handlers.respond
      match v with
      | PStr hex =>
          prf_key_bytes <-
            match Handlers.fromhex hex with
            | Some bs => Ok bs
            | None => Raise (ValueError "Invalid hex string for prf_key")
            end ;;
          validate_prf_key prf_key_bytes ;;;
          result <- PlinkoPIRServer.full_set_query srv prf_key_bytes nanos ;;
          Ok (Handlers.value_body result, 200)
      | _ => Raise (ValueError "PRF key must be a hex string")
      end.
Proof.
  intros Hv. unfold Handlers.full_set_query_handler, Handlers.cors_middleware.
  change (String.eqb (Handlers.method (post_json fields addr)) "OPTIONS") with false.
  cbv iota. rewrite (request_with_field fields "prf_key" addr v Hv). cbn [bind].
  rewrite Hv. cbn [bind]. reflexivity.
Qed.

(** X18.  On a loaded database with at least one record, a full-set
    request whose JSON object holds [prf_key] is answered 200 with the XOR
    of the records at the expanded indices exactly when the value is a
    string of hexadecimal digits decoding to 16 bytes; a value that is no
    string, a string that is not hexadecimal and a key of another length
    are each answered 400 with their own fixed message. *)
Theorem full_set_handler_spec (path : string) (timeout : Z) (file : list byte)
        (db : PlinkoDatabase.t) (fields : list (string * pyval)) (v : pyval)
        (nanos : Z) (addr : string) :
  PlinkoDatabase.load (PlinkoDatabase.init path) timeout (Some file) = Ok db ->
  1 <= PlinkoDatabase.get_size db ->
  Handlers.getitem (PDict fields) "prf_key" = Ok v ->
  let resp := Handlers.full_set_query_handler (PlinkoPIRServer.init db) nanos
                (post_json fields addr) in
  (forall hex key,
     v = PStr hex -> Handlers.fromhex hex = Some key ->
     List.length key = 16%nat ->
     resp = (PDict [("value",
                     PInt (xor_all (map (file_record file) (full_set_indices db key))));
                    ("server_time_nanos", PInt nanos)], 200))
  /\ (forall hex key,
        v = PStr hex -> Handlers.fromhex hex = Some key ->
        List.length key <> 16%nat ->
        resp = (PDict [("error",
                        PStr ("PRF key must be 16 bytes, got "
                                ++ str_Z (Z.of_nat (List.length key)))%string)], 400))
  /\ (forall hex,
        v = PStr hex -> Handlers.fromhex hex = None ->
        resp = (PDict [("error", PStr "Invalid hex string for prf_key")], 400))
  /\ ((forall hex, v <> PStr hex) ->
      resp = (PDict [("error", PStr "PRF key must be a hex string")], 400)).
Proof.
  intros Hload Hn Hv. cbn zeta. unfold PlinkoDatabase.get_size in Hn.
  destruct (load_consistent _ _ _ _ Hload) as [Hc _].
  rewrite (full_set_handler_steps _ nanos fields v addr Hv).
  split; [|split; [|split]].
  - intros hex key -> Hhex Hk. rewrite Hhex. cbn [bind].
    rewrite validate_prf_key_ok by exact Hk. cbn [bind].
    rewrite full_set_query_ok by assumption.
    cbn [bind Handlers.respond Handlers.value_body ValueResult.value
         ValueResult.server_time_nanos].
    enough (Hmap : map (fun idx => nth (Z.to_nat idx) (PlinkoDatabase.data db) 0)
                       (full_set_indices db key)
                   = map (file_record file) (full_set_indices db key))
      by now rewrite Hmap.
    apply map_ext_in. intros idx Hidx.
    pose proof (full_set_indices_in_bounds db key Hn) as Hb.
    rewrite Forall_forall in Hb. specialize (Hb idx Hidx).
    apply load_inv in Hload as [Hm ->]. cbn [PlinkoDatabase.data].
    cbn [PlinkoDatabase.size] in Hb. now apply loaded_record.
  - intros hex key -> Hhex Hk. rewrite Hhex. cbn [bind].
    rewrite validate_prf_key_raise by exact Hk. reflexivity.
  - intros hex -> Hhex. rewrite Hhex. reflexivity.
  - intros Hns. destruct v; try reflexivity. now destruct (Hns s).
Qed.

Lemma full_set_handler_spec_witness :
  exists db,
    PlinkoDatabase.load (PlinkoDatabase.init "data/database.bin") 0
      (Some (hexs [0;0;0;0;0;0;0;5; 0;0;0;0;0;0;0x03;0xe8])) = Ok db
    /\ Handlers.full_set_query_handler (PlinkoPIRServer.init db) 7
         (post_json [("prf_key", PStr "00ff")] "127.0.0.1")
       = (PDict [("error", PStr "PRF key must be 16 bytes, got 2")], 400).
Proof.
  eexists. split; [reflexivity|].
  refine (proj1 (proj2 (full_set_handler_spec "data/database.bin" 0
                   (hexs [0;0;0;0;0;0;0;5; 0;0;0;0;0;0;0x03;0xe8])
                   _ [("prf_key", PStr "00ff")] (PStr "00ff") 7 "127.0.0.1"
                   eq_refl _ eq_refl))
                "00ff" (hexs [0; 0xff]) eq_refl eq_refl _).
  - vm_compute. discriminate.
  - vm_compute. discriminate.
Defined.

(** X19.  Every query handler answers an [OPTIONS] request with an empty
    object and 200 whatever the body.  For any other method, a request
    without a JSON content type, a JSON [null] body and a JSON object
    lacking the required field are answered 400 with a fixed message,
    while a body that is a bare JSON number is answered 500, the
    membership test on it raising [TypeError]. *)
Theorem request_shape_errors (srv : PlinkoPIRServer.t) (nanos : Z) :
  Forall
    (fun hf : (Handlers.request -> Handlers.response) * string =>
       let (h, field) := hf in
       (forall ij body addr,
          h (Handlers.mk_request "OPTIONS" ij body addr) = (PDict [], 200))
       /\ forall m addr,
            m <> "OPTIONS" ->
            (forall body,
               h (Handlers.mk_request m false body addr)
               = (PDict [("error", PStr "Request must contain JSON data")], 400))
            /\ h (Handlers.mk_request m true (Some PNone) addr)
               = (PDict [("error", PStr "Invalid JSON data")], 400)
            /\ (forall fields,
                  existsb (fun kv => String.eqb (fst kv) field) fields = false ->
                  h (Handlers.mk_request m true (Some (PDict fields)) addr)
                  = (PDict [("error",
                             PStr ("Missing required fields: ['" ++ field ++ "']")%string)],
                     400))
            /\ (forall z,
                  h (Handlers.mk_request m true (Some (PInt z)) addr)
                  = (PDict [("error", PStr "Internal server error")], 500)))
    [(Handlers.plaintext_query_handler srv nanos, "index");
     (Handlers.set_parity_query_handler srv nanos, "indices");
     (Handlers.full_set_query_handler srv nanos, "prf_key")].
Proof.
  repeat constructor; try reflexivity;
    unfold Handlers.plaintext_query_handler, Handlers.set_parity_query_handler,
      Handlers.full_set_query_handler, Handlers.cors_middleware;
    cbn [Handlers.method]; apply String.eqb_neq in H; rewrite H;
    try reflexivity;
    intros fields Hf; unfold Handlers.validate_json_request;
    cbn [Handlers.is_json Handlers.json negb map_result Handlers.contains];
    rewrite Hf; reflexivity.
Qed.
